(** * Context providers and consumers of the use-context examples

    A shallow embedding of the React components of the repository
    (CountProvider, CollegeProvider, App, CompA, CompB, Navbar) together with
    the part of the JavaScript and React semantics they run on: values,
    property access, truthiness, context lookup, [useState], [useEffect] with
    a dependency array, and promise chains. *)

From Stdlib Require Import String Ascii List ZArith Bool Lia DecimalString.
Import ListNotations.
Local Open Scope string_scope.

Set Warnings "-register-all".

(** ** JavaScript values *)

Module JS.

(** The [useState] cells of the program, one per provider. *)
Inductive hook := HCount | HJoke | HTheme.

Definition hook_eqb (a b : hook) : bool :=
  match a, b with
  | HCount, HCount | HJoke, HJoke | HTheme, HTheme => true
  | _, _ => false
  end.

(** Numbers are restricted to integers (the counter holds one).  A function
    value is either the dispatcher that [useState] returns for a cell, or an
    arrow function that ignores its argument and returns a constant,
    [() => c]. *)
Inductive value :=
| VUndefined
| VNull
| VBool (b : bool)
| VNum (n : Z)
| VStr (s : string)
| VArr (items : list value)
| VObj (fields : list (string * value))
| VFun (f : fn)
with fn :=
| FDispatch (h : hook)
| FConst (c : value).

(** What [response.json()] can produce. *)
Inductive json :=
| JNull
| JBool (b : bool)
| JNum (n : Z)
| JStr (s : string)
| JArr (items : list json)
| JObj (fields : list (string * json)).

Fixpoint of_json (j : json) : value :=
  match j with
  | JNull => VNull
  | JBool b => VBool b
  | JNum n => VNum n
  | JStr s => VStr s
  | JArr items => VArr (map of_json items)
  | JObj fields => VObj (map (fun kv => (fst kv, of_json (snd kv))) fields)
  end.

(** [typeof v === "function"] *)
Definition is_function (v : value) : bool :=
  match v with VFun _ => true | _ => false end.

(** Exceptions. *)
Inductive error :=
| TypeError (msg : string)
| SyntaxError (msg : string)
| NetworkError (msg : string)
| InvariantError (msg : string).

Inductive result (A : Type) :=
| Ok (a : A)
| Throw (e : error).
Arguments Ok {A} a.
Arguments Throw {A} e.

Definition rbind {A B} (r : result A) (f : A -> result B) : result B :=
  match r with
  | Ok a => f a
  | Throw e => Throw e
  end.

(** ToBoolean *)
Definition truthy (v : value) : bool :=
  match v with
  | VUndefined | VNull => false
  | VBool b => b
  | VNum n => negb (Z.eqb n 0)
  | VStr s => negb (String.eqb s "")
  | VArr _ | VObj _ | VFun _ => true
  end.

(** [v === "lit"] against a string literal. *)
Definition strict_eq_str (v : value) (lit : string) : bool :=
  match v with
  | VStr s => String.eqb s lit
  | _ => false
  end.

(** String(n) for an integer. *)
Definition number_to_string (n : Z) : string :=
  NilZero.string_of_int (Z.to_int n).

(** An array index is a canonical decimal numeral. *)
Definition parse_index (k : string) : option nat :=
  match NilEmpty.uint_of_string k with
  | Some u =>
      let n := Nat.of_uint u in
      if String.eqb (NilZero.string_of_uint (Nat.to_uint n)) k
      then Some n else None
  | None => None
  end.

(** Keys of an object are distinct; the first binding is the property. *)
Fixpoint lookup_field (k : string) (fields : list (string * value)) : option value :=
  match fields with
  | [] => None
  | (k', v) :: rest => if String.eqb k k' then Some v else lookup_field k rest
  end.

Definition char_at (s : string) (i : nat) : value :=
  match String.get i s with
  | Some c => VStr (String c EmptyString)
  | None => VUndefined
  end.

(** Property read [v.k], also what the destructuring [const {k} = v] does.
    Only own data properties are modelled (no prototype methods). *)
Definition get_prop (v : value) (k : string) : result value :=
  match v with
  | VUndefined =>
      Throw (TypeError ("Cannot read properties of undefined (reading '" ++ k ++ "')"))
  | VNull =>
      Throw (TypeError ("Cannot read properties of null (reading '" ++ k ++ "')"))
  | VObj fields =>
      Ok (match lookup_field k fields with Some x => x | None => VUndefined end)
  | VArr items =>
      if String.eqb k "length" then Ok (VNum (Z.of_nat (List.length items)))
      else match parse_index k with
           | Some i => Ok (nth i items VUndefined)
           | None => Ok VUndefined
           end
  | VStr s =>
      if String.eqb k "length" then Ok (VNum (Z.of_nat (String.length s)))
      else match parse_index k with
           | Some i => Ok (char_at s i)
           | None => Ok VUndefined
           end
  | VBool _ | VNum _ | VFun _ => Ok VUndefined
  end.

End JS.
Export JS.

(** Sequencing for code that can throw, for partial steps and, below, for
    rendering. *)
Class Monad (m : Type -> Type) := {
  ret : forall {A}, A -> m A;
  bind : forall {A B}, m A -> (A -> m B) -> m B
}.

Declare Scope js_scope.
Delimit Scope js_scope with js.
Notation "x <- c ;; k" := (bind c (fun x => k))
  (at level 61, c at next level, right associativity) : js_scope.
Notation "' pat <- c ;; k" := (bind c (fun x => match x with pat => k end))
  (at level 61, pat pattern, c at next level, right associativity) : js_scope.

#[export] Instance result_monad : Monad result :=
  {| ret := @Ok; bind := @rbind |}.

#[export] Instance option_monad : Monad option :=
  {| ret := @Some;
     bind := fun A B (o : option A) (f : A -> option B) =>
               match o with Some a => f a | None => None end |}.

(** ** The React runtime the components use *)

Module React.

Local Open Scope js_scope.

(** The contexts of the program.  Each is made by [createContext()] without
    an argument (CountContext and CollegeContext in their modules,
    ThemeContext as UserHooks.md gives it), so the default value of every
    context is [undefined]. *)
Inductive context := CountContext | CollegeContext | ThemeContext.

Definition context_eqb (a b : context) : bool :=
  match a, b with
  | CountContext, CountContext
  | CollegeContext, CollegeContext
  | ThemeContext, ThemeContext => true
  | _, _ => false
  end.

Definition default_value (c : context) : value := VUndefined.

(** The providers above a component, nearest first. *)
Definition env := list (context * value).

Fixpoint nearest (c : context) (e : env) : option value :=
  match e with
  | [] => None
  | (c', v) :: above => if context_eqb c c' then Some v else nearest c above
  end.

Definition useContext (c : context) (e : env) : value :=
  match nearest c e with
  | Some v => v
  | None => default_value c
  end.

(** Rendered output.  A click handler [() => f(a)] is kept as the callee
    and the argument its closure captured. *)
Record handler := Handler { callee : value; argument : value }.

Record props := Props { style : list (string * string); onClick : option handler }.

Definition plain : props := {| style := []; onClick := None |}.

Inductive node :=
| NText (s : string)
| NElem (tag : string) (attrs : props) (children : list node).

Fixpoint text_content (n : node) : string :=
  match n with
  | NText s => s
  | NElem _ _ children =>
      fold_right (fun c acc => text_content c ++ acc) "" children
  end.

Fixpoint handlers (n : node) : list handler :=
  (match n with
   | NText _ => []
   | NElem _ attrs children =>
       match onClick attrs with Some h => [h] | None => [] end
       ++ flat_map handlers children
   end)%list.

Fixpoint tags (n : node) : list string :=
  match n with
  | NText _ => []
  | NElem tag _ children => tag :: flat_map tags children
  end.

(** A JSX child [{v}]: nothing for undefined, null, booleans, the empty
    string and functions; text for strings and numbers; the items of an
    array; an object is rejected. *)
Fixpoint render_child (v : value) : result (list node) :=
  match v with
  | VUndefined | VNull | VBool _ | VFun _ => Ok []
  | VStr s => if String.eqb s "" then Ok [] else Ok [NText s]
  | VNum n => Ok [NText (number_to_string n)]
  | VArr items =>
      fold_right
        (fun item acc =>
           here <- render_child item ;;
           rest <- acc ;;
           ret (here ++ rest)%list)
        (Ok []) items
  | VObj _ => Throw (InvariantError "Objects are not valid as a React child")
  end.

(** Stateless components: CompA, CompB, Navbar. *)
Definition consumer := env -> result (list node).

(** *** Promise chains

    A chain is a tree of what it still waits for: the answer of the network
    to [fetch], the parsing of a response body, or nothing. *)
Record response := Response { status : Z; body : option json }.

Inductive async (A : Type) :=
| Resolved (a : A)
| Rejected (e : error)
| AwaitFetch (url : string) (k : result response -> async A)
| AwaitJson (r : response) (k : result json -> async A)
| Dispatch (h : hook) (action : value) (k : async A).
Arguments Resolved {A} a.
Arguments Rejected {A} e.
Arguments AwaitFetch {A} url k.
Arguments AwaitJson {A} r k.
Arguments Dispatch {A} h action k.

(** [p.then(f)]: [f] runs on fulfilment; a rejection passes through. *)
Fixpoint then_ {A B} (p : async A) (f : A -> async B) : async B :=
  match p with
  | Resolved a => f a
  | Rejected e => Rejected e
  | AwaitFetch url k => AwaitFetch url (fun x => then_ (k x) f)
  | AwaitJson r k => AwaitJson r (fun x => then_ (k x) f)
  | Dispatch h action k => Dispatch h action (then_ k f)
  end.

Definition settle {A} (x : result A) : async A :=
  match x with
  | Ok a => Resolved a
  | Throw e => Rejected e
  end.

Definition fetch (url : string) : async response := AwaitFetch url settle.

Definition response_json (r : response) : async value :=
  AwaitJson r (fun x => settle (j <- x ;; ret (of_json j))).

(** The call [f(a)] inside a callback or a handler. *)
Definition call (f a : value) : async value :=
  match f with
  | VFun (FDispatch h) => Dispatch h a (Resolved VUndefined)
  | VFun (FConst c) => Resolved c
  | _ => Rejected (TypeError "not a function")
  end.

(** What the environment answers. *)
Definition network := string -> result response.

Definition parse_body (r : response) : result json :=
  match body r with
  | Some j => Ok j
  | None => Throw (SyntaxError "Unexpected token in JSON")
  end.

(** *** Component state

    [cells] are the [useState] cells ([None] until the owner has mounted),
    [effect_deps] the dependency array recorded for the one [useEffect] of
    the program, [scheduled] the effects the current render asked for,
    [pending] the promise chains waiting for the environment, [calls] the
    log of dispatcher invocations, and [crashed] the error that unmounted
    the tree, if any. *)
Record world := World {
  cells : hook -> option value;
  effect_deps : option (list value);
  scheduled : list (async value);
  pending : list (async value);
  calls : list (hook * value);
  crashed : option error
}.

Definition initial_world : world :=
  {| cells := fun _ => None; effect_deps := None; scheduled := [];
     pending := []; calls := []; crashed := None |}.

Definition set_cell (h : hook) (v : value) (w : world) : world :=
  {| cells := fun h' => if hook_eqb h' h then Some v else cells w h';
     effect_deps := effect_deps w; scheduled := scheduled w;
     pending := pending w; calls := calls w; crashed := crashed w |}.

Definition set_pending (ps : list (async value)) (w : world) : world :=
  {| cells := cells w; effect_deps := effect_deps w; scheduled := scheduled w;
     pending := ps; calls := calls w; crashed := crashed w |}.

Definition log_call (h : hook) (action : value) (w : world) : world :=
  {| cells := cells w; effect_deps := effect_deps w; scheduled := scheduled w;
     pending := pending w; calls := (calls w ++ [(h, action)])%list;
     crashed := crashed w |}.

Definition crash (e : error) (w : world) : world :=
  {| cells := cells w; effect_deps := effect_deps w; scheduled := scheduled w;
     pending := pending w; calls := calls w; crashed := Some e |}.

(** Rendering reads and allocates cells and may throw. *)
Definition render (A : Type) : Type := world -> result (A * world).

#[export] Instance render_monad : Monad render :=
  {| ret := fun A (a : A) (w : world) => Ok (a, w);
     bind := fun A B (m : render A) (f : A -> render B) (w : world) =>
               match m w with
               | Ok (a, w') => f a w'
               | Throw e => Throw e
               end |}.

Definition component := env -> render (list node).

(** [const [x, setX] = useState(init)] *)
Definition useState (h : hook) (init : value) : render (value * value) :=
  fun w =>
    match cells w h with
    | Some v => Ok ((v, VFun (FDispatch h)), w)
    | None => Ok ((init, VFun (FDispatch h)), set_cell h init w)
    end.

(** [Object.is] on primitives and dispatchers; arrays, objects and closures
    are references and two of them are never taken to be the same. *)
Definition object_is (a b : value) : bool :=
  match a, b with
  | VUndefined, VUndefined | VNull, VNull => true
  | VBool x, VBool y => Bool.eqb x y
  | VNum x, VNum y => Z.eqb x y
  | VStr x, VStr y => String.eqb x y
  | VFun (FDispatch h), VFun (FDispatch h') => hook_eqb h h'
  | _, _ => false
  end.

Fixpoint inputs_equal (prev next : list value) : bool :=
  match prev, next with
  | a :: prev', b :: next' => object_is b a && inputs_equal prev' next'
  | _, _ => true
  end.

(** [useEffect(body, deps)]: the body is scheduled on mount and whenever a
    dependency differs from the one recorded at the previous render. *)
Definition useEffect (body : async value) (deps : list value) : render unit :=
  fun w =>
    let fire :=
      match effect_deps w with
      | None => true
      | Some prev => negb (inputs_equal prev deps)
      end in
    Ok (tt,
        {| cells := cells w; effect_deps := Some deps;
           scheduled := if fire then (scheduled w ++ [body])%list else scheduled w;
           pending := pending w; calls := calls w; crashed := crashed w |}).

(** [<C.Provider value={v}>{children}</C.Provider>] *)
Definition provide (c : context) (v : value) (children : consumer) : component :=
  fun e w =>
    match children ((c, v) :: e) with
    | Ok nodes => Ok (nodes, w)
    | Throw err => Throw err
    end.

(** The reducer behind a [useState] dispatcher: a function argument is an
    updater and is applied to the current state, anything else is the next
    state.  A dispatcher passed as the updater would dispatch from inside
    the reducer; that is outside this model ([None]). *)
Definition basicStateReducer (state action : value) : option value :=
  match action with
  | VFun (FConst c) => Some c
  | VFun (FDispatch _) => None
  | _ => Some action
  end.

(** [setX(action)].  Nothing is stored for a cell that never mounted. *)
Definition dispatch (h : hook) (action : value) (w : world) : option world :=
  match cells w h with
  | Some state =>
      next <- basicStateReducer state action ;;
      ret (set_cell h next (log_call h action w))
  | None => ret (log_call h action w)
  end.

(** Run a chain until it waits for the environment or ends; a rejection
    that reaches the end of the chain is dropped. *)
Fixpoint advance (p : async value) (w : world) : option (list (async value) * world) :=
  match p with
  | Resolved _ | Rejected _ => ret ([], w)
  | AwaitFetch _ _ | AwaitJson _ _ => ret ([p], w)
  | Dispatch h action k =>
      w' <- dispatch h action w ;;
      advance k w'
  end.

Definition deliver (net : network) (p : async value) (w : world)
  : option (list (async value) * world) :=
  match p with
  | AwaitFetch url k => advance (k (net url)) w
  | AwaitJson r k => advance (k (parse_body r)) w
  | _ => advance p w
  end.

(** Start a chain and park what is left of it. *)
Definition start (p : async value) (w : world) : option world :=
  '(parked, w') <- advance p w ;;
  ret (set_pending (pending w' ++ parked)%list w').

Fixpoint start_all (ps : list (async value)) (w : world) : option world :=
  match ps with
  | [] => ret w
  | p :: rest => w' <- start p w ;; start_all rest w'
  end.

(** After a render, the effects it scheduled are run. *)
Definition commit (w : world) : option world :=
  start_all (scheduled w)
    {| cells := cells w; effect_deps := effect_deps w; scheduled := [];
       pending := pending w; calls := calls w; crashed := crashed w |}.

(** Render the tree from the root and commit; an error thrown while
    rendering is caught by nothing and unmounts the tree. *)
Definition paint (tree : component) (w : world) : option world :=
  match tree [] w with
  | Ok (_, w') => commit w'
  | Throw e => ret (crash e w)
  end.

(** What is on screen. *)
Definition view (tree : component) (w : world) : result (list node) :=
  match tree [] w with
  | Ok (nodes, _) => Ok nodes
  | Throw e => Throw e
  end.

Definition mount (tree : component) : option world := paint tree initial_world.

(** What can happen to a mounted tree: a re-render, the environment
    answering the oldest waiting chain, a click on the i-th handler on
    screen. *)
Inductive event := ERender | ENetwork | EClick (i : nat).

Definition react (net : network) (tree : component) (ev : event) (w : world)
  : option world :=
  match ev with
  | ERender => ret w
  | ENetwork =>
      match pending w with
      | [] => ret w
      | p :: waiting =>
          '(parked, w') <- deliver net p (set_pending waiting w) ;;
          ret (set_pending (pending w' ++ parked)%list w')
      end
  | EClick i =>
      match view tree w with
      | Ok nodes =>
          match nth_error (flat_map handlers nodes) i with
          | Some h => start (call (callee h) (argument h)) w
          | None => ret w
          end
      | Throw _ => ret w
      end
  end.

Definition step (net : network) (tree : component) (w : world) (ev : event)
  : option world :=
  match crashed w with
  | Some _ => ret w
  | None => w' <- react net tree ev w ;; paint tree w'
  end.

Fixpoint run (net : network) (tree : component) (w : world) (evs : list event)
  : option world :=
  match evs with
  | [] => ret w
  | ev :: rest => w' <- step net tree w ev ;; run net tree w' rest
  end.

End React.
Export React.

(** ** The components of the repository *)

Module App.

Local Open Scope js_scope.

(** Components/CountContext: the hooks of [CountProvider] and the object it
    passes as [value={{count,setCount}}]. *)
Definition CountProvider_value : render value :=
  '(count, setCount) <- useState HCount (VNum 100) ;;
  ret (VObj [("count", count); ("setCount", setCount)]).

(** Components/CountContext: [CountProvider]. *)
Definition CountProvider (children : consumer) : component :=
  fun e =>
    v <- CountProvider_value ;;
    provide CountContext v children e.

Definition joke_url : string := "https://sv443.net/jokeapi/v2/joke/Any".

(** CollegeContext: the effect of [CollegeProvider],
    [fetch(url).then(response => response.json()).then(data => setJoke(data))]. *)
Definition fetch_joke (setJoke : value) : async value :=
  then_ (then_ (fetch joke_url) (fun response => response_json response))
        (fun data => call setJoke data).

(** CollegeContext: the hooks of [CollegeProvider] and the object it passes
    as [value={{ joke }}]. *)
Definition CollegeProvider_value : render value :=
  '(joke, setJoke) <- useState HJoke (VStr "") ;;
  _ <- useEffect (fetch_joke setJoke) [] ;;
  ret (VObj [("joke", joke)]).

(** CollegeContext: [CollegeProvider]. *)
Definition CollegeProvider (children : consumer) : component :=
  fun e =>
    v <- CollegeProvider_value ;;
    provide CollegeContext v children e.

(** CompA.jsx *)
Definition CompA : consumer :=
  fun e =>
    joke <- get_prop (useContext CollegeContext e) "joke" ;;
    guard <- get_prop joke "category" ;;
    heading <-
      (if truthy guard
       then category <- get_prop joke "category" ;;
            shown <- render_child category ;;
            ret [NElem "h2" plain (NText "Category: " :: shown)]
       else render_child guard) ;;
    ret [NElem "div" plain
           (NElem "h1" plain [NText "Joke of the day"] :: heading)].

(** CompB.jsx *)
Definition CompB : consumer :=
  fun e =>
    let ctx := useContext CountContext e in
    count <- get_prop ctx "count" ;;
    setCount <- get_prop ctx "setCount" ;;
    shown <- render_child count ;;
    ret [NElem "div" plain shown].

(** Components/Navbar.jsx: the argument of [setTheme] in the click
    handler, [theme === "light" ? "dark" : "light"]. *)
Definition next_theme (theme : value) : value :=
  if strict_eq_str theme "light" then VStr "dark" else VStr "light".

(** Components/Navbar.jsx *)
Definition Navbar : consumer :=
  fun e =>
    let ctx := useContext ThemeContext e in
    theme <- get_prop ctx "theme" ;;
    setTheme <- get_prop ctx "setTheme" ;;
    shown <- render_child theme ;;
    ret [NElem "div"
           {| style :=
                [("backgroundColor",
                  if strict_eq_str theme "light" then "#fff" else "#222");
                 ("color",
                  if strict_eq_str theme "light" then "#000" else "#fff")];
              onClick := None |}
           [NElem "h1" plain (shown ++ [NText " MODE"]);
            NElem "button"
              {| style := [];
                 onClick := Some (Handler setTheme (next_theme theme)) |}
              [NText "Toggle Theme"]]].

(** App.jsx: [<CountProvider><CompB/></CountProvider>]. *)
Definition App : component := CountProvider CompB.

(** A consumer mounted as the whole tree. *)
Definition bare (c : consumer) : component :=
  fun e w =>
    match c e with
    | Ok nodes => Ok (nodes, w)
    | Throw err => Throw err
    end.

End App.
Export App.

(** ** Observations used in the statements *)

(** The object a provider hands to its subtree in world [w]. *)
Definition exposed (hooks : render value) (w : world) : result value :=
  match hooks w with
  | Ok (v, _) => Ok v
  | Throw e => Throw e
  end.

Definition count_value (w : world) : value :=
  match cells w HCount with Some v => v | None => VUndefined end.

Definition joke_value (w : world) : value :=
  match cells w HJoke with Some v => v | None => VUndefined end.

(** Answers of the environment among the events. *)
Fixpoint count_network (evs : list event) : nat :=
  match evs with
  | [] => 0
  | ENetwork :: rest => S (count_network rest)
  | _ :: rest => count_network rest
  end.

(** No click handler of the subtree calls a [useState] dispatcher. *)
Definition setter_free (c : consumer) : Prop :=
  forall e nodes hd h,
    c e = Ok nodes -> In hd (flat_map handlers nodes) ->
    callee hd <> VFun (FDispatch h).

(** Mount a tree and feed it the events. *)
Definition lifetime (net : network) (tree : component) (evs : list event)
  : option world :=
  (w0 <- mount tree ;; run net tree w0 evs)%js.

(** ** Notions used in the proofs and statements *)

Section Notions.

Local Open Scope js_scope.

(** Every field of the world but [crashed] is the same. *)
Definition frame (w w' : world) : Prop :=
  cells w' = cells w /\ effect_deps w' = effect_deps w /\
  scheduled w' = scheduled w /\ pending w' = pending w /\ calls w' = calls w.

(** The object [{count, setCount}] when the cell holds [v]. *)
Definition count_context (v : value) : value :=
  VObj [("count", v); ("setCount", VFun (FDispatch HCount))].

(** The invariant of a mounted counter tree: nothing is scheduled, nothing
    waits, the log has only grown since it was [log], and the cell still
    holds [v] if the log is still [log]. *)
Definition steady (log : list (hook * value)) (v : value) (w : world) : Prop :=
  scheduled w = [] /\ pending w = [] /\
  List.length log <= List.length (calls w) /\
  exists x, cells w HCount = Some x /\ (calls w = log -> x = v).

(** The object [{joke}] when the cell holds [j]. *)
Definition joke_context (j : value) : value := VObj [("joke", j)].

(** The chain as the effect starts it, and what is left of it once the
    response has arrived. *)
Definition chain_requested : async value := fetch_joke (VFun (FDispatch HJoke)).

Definition chain_parsing (r : response) : async value :=
  then_ (response_json r) (fun data => call (VFun (FDispatch HJoke)) data).

(** The phases of a mount: the request is out, the body is being parsed,
    the payload is stored, or the chain was rejected and dropped. *)
Inductive phase :=
| Requested
| Parsing (r : response)
| Stored (d : value)
| Dropped.

Definition in_phase (ph : phase) (w : world) : Prop :=
  effect_deps w = Some [] /\ scheduled w = [] /\
  match ph with
  | Requested =>
      cells w HJoke = Some (VStr "") /\ pending w = [chain_requested] /\
      calls w = [] /\ crashed w = None
  | Parsing r =>
      cells w HJoke = Some (VStr "") /\ pending w = [chain_parsing r] /\
      calls w = [] /\ crashed w = None
  | Stored d =>
      cells w HJoke = Some d /\ pending w = [] /\ calls w = [(HJoke, d)]
  | Dropped =>
      cells w HJoke = Some (VStr "") /\ pending w = [] /\
      calls w = [] /\ crashed w = None
  end.

Definition next_phase (net : network) (ph : phase) (ev : event) : phase :=
  match ev, ph with
  | ENetwork, Requested =>
      match net joke_url with
      | Ok r => Parsing r
      | Throw _ => Dropped
      end
  | ENetwork, Parsing r =>
      match body r with
      | Some j => Stored (of_json j)
      | None => Dropped
      end
  | _, _ => ph
  end.

Definition stored_value (ph : phase) : value :=
  match ph with
  | Stored d => d
  | _ => VStr ""
  end.

(** Before the second answer nothing has been stored. *)
Definition unstored (ph : phase) : Prop :=
  match ph with Stored _ => False | _ => True end.

(** A provider exposes a pair when the object it hands to its subtree has a
    field holding the cell and a field holding the dispatcher of the cell. *)
Definition exposes_pair (hooks : render value) (h : hook) (w : world) : Prop :=
  exists ctx w1 v kv ks,
    hooks w = Ok (ctx, w1) /\ cells w1 h = Some v /\
    get_prop ctx kv = Ok v /\ get_prop ctx ks = Ok (VFun (FDispatch h)).

(** A consumer and the context it reads. *)
Inductive reads : consumer -> context -> Prop :=
| reads_CompA : reads CompA CollegeContext
| reads_CompB : reads CompB CountContext.

(** What it means that the exposed setter, called with [v] in world [w],
    stores [v] as it is and that consumers then read [v]: the call succeeds
    and is logged, and in every later world reached without a further call
    the cell holds [v], the provider renders any subtree under
    [{count: v, setCount}], and CompB inside the provider shows [v]. *)
Definition stores_verbatim
    (net : network) (children : consumer) (w : world) (v : value) : Prop :=
  exists ctx setCount w1,
    exposed CountProvider_value w = Ok ctx /\
    get_prop ctx "setCount" = Ok setCount /\
    start (call setCount v) w = Some w1 /\
    calls w1 = (calls w ++ [(HCount, v)])%list /\
    forall evs w2,
      run net (CountProvider children) w1 evs = Some w2 ->
      calls w2 = calls w1 ->
      count_value w2 = v /\
      exposed CountProvider_value w2 = Ok (count_context v) /\
      (forall c e, CountProvider c e w2
                   = provide CountContext (count_context v) c e w2) /\
      view (CountProvider CompB) w2
      = (shown <- render_child v ;; ret [NElem "div" plain shown]) /\
      (forall above, CompB ((CountContext, count_context v) :: above)
                     = (shown <- render_child v ;;
                        ret [NElem "div" plain shown])).

(** Sample environments: a network that is down, one that answers with a
    given payload, one whose answer is not JSON. *)
Definition quiet_net : network := fun _ => Throw (NetworkError "offline").

Definition programming : json := JObj [("category", JStr "Programming")].

Definition answering (j : json) : network :=
  fun _ => Ok {| status := 200; body := Some j |}.

Definition garbled : network :=
  fun _ => Ok {| status := 200; body := None |}.

End Notions.

(** ** The theme provider that Navbar reads *)

Module Theme.

Local Open Scope js_scope.

(** UserHooks.md, ThemeContext.js: the hooks of [ThemeProvider] and the
    object it passes as [value={{ theme, setTheme }}]. *)
Definition ThemeProvider_value : render value :=
  '(theme, setTheme) <- useState HTheme (VStr "light") ;;
  ret (VObj [("theme", theme); ("setTheme", setTheme)]).

(** UserHooks.md, ThemeContext.js: [ThemeProvider]. *)
Definition ThemeProvider (children : consumer) : component :=
  fun e =>
    v <- ThemeProvider_value ;;
    provide ThemeContext v children e.

End Theme.
Export Theme.

Section MoreNotions.

(** The object [{theme, setTheme}] when the cell holds [t]. *)
Definition theme_context (t : value) : value :=
  VObj [("theme", t); ("setTheme", VFun (FDispatch HTheme))].

Definition theme_value (w : world) : value :=
  match cells w HTheme with Some v => v | None => VUndefined end.

(** Clicks on the first handler on screen among the events. *)
Fixpoint count_toggles (evs : list event) : nat :=
  match evs with
  | [] => 0
  | EClick 0 :: rest => S (count_toggles rest)
  | _ :: rest => count_toggles rest
  end.

(** The theme after [n] toggles of a fresh mount. *)
Definition theme_after (n : nat) : string :=
  if Nat.even n then "light" else "dark".

(** The colours Navbar is expected to use for a theme. *)
Definition palette (theme : string) : list (string * string) :=
  if String.eqb theme "light"
  then [("backgroundColor", "#fff"); ("color", "#000")]
  else [("backgroundColor", "#222"); ("color", "#fff")].

(** The style of the outermost element on screen. *)
Definition root_style (nodes : list node) : list (string * string) :=
  match nodes with
  | NElem _ attrs _ :: _ => style attrs
  | _ => []
  end.

(** The error a render result stands for, if any. *)
Definition crash_of (r : result (list node)) : option error :=
  match r with
  | Ok _ => None
  | Throw e => Some e
  end.

(** The invariant of a mounted theme tree around Navbar. *)
Definition themed (light : bool) (n : nat) (w : world) : Prop :=
  cells w HTheme = Some (VStr (if light then "light" else "dark")) /\
  scheduled w = [] /\ pending w = [] /\ crashed w = None /\
  List.length (calls w) = n.

(** The invariant of a mounted joke provider with the state of its tree:
    once the payload is stored the tree is crashed exactly when the subtree
    throws on the payload. *)
Definition in_phase_tracked (children : consumer) (ph : phase) (w : world) : Prop :=
  in_phase ph w /\
  forall d, ph = Stored d ->
    crashed w = crash_of (children [(CollegeContext, joke_context d)]).

(** The texts of the elements directly under the outermost element. *)
Definition root_texts (nodes : list node) : list string :=
  match nodes with
  | NElem _ _ kids :: _ => map text_content kids
  | _ => []
  end.

(** The invariant of the mounted App: only the counter cell exists, it
    holds 100, no effect was ever recorded, nothing waits, nothing was
    called and the tree is mounted. *)
Definition app_idle (w : world) : Prop :=
  cells w HCount = Some (VNum 100) /\ cells w HJoke = None /\
  cells w HTheme = None /\ effect_deps w = None /\ scheduled w = [] /\
  pending w = [] /\ calls w = [] /\ crashed w = None.

End MoreNotions.

(** ** Basic facts *)

Section Basics.

Local Open Scope js_scope.

Lemma of_json_not_function (j : json) : is_function (of_json j) = false.
Proof. destruct j; reflexivity. Qed.

Lemma reducer_plain (state v : value) :
  is_function v = false -> basicStateReducer state v = Some v.
Proof. destruct v; simpl; intros H; try reflexivity; discriminate H. Qed.

Lemma frame_refl (w : world) : frame w w.
Proof. repeat split. Qed.

Lemma frame_trans (a b c : world) : frame a b -> frame b c -> frame a c.
Proof.
  intros (H1 & H2 & H3 & H4 & H5) (K1 & K2 & K3 & K4 & K5).
  repeat split; congruence.
Qed.

Lemma frame_crash (e : error) (w : world) : frame w (crash e w).
Proof. repeat split. Qed.

Lemma commit_idle (w : world) :
  scheduled w = [] -> exists w', commit w = Some w' /\ frame w w' /\ crashed w' = crashed w.
Proof.
  intros H. unfold commit. rewrite H. simpl.
  eexists. split; [reflexivity|]. split; [|reflexivity].
  repeat split; simpl; auto.
Qed.

(** A call whose callee is not a dispatcher leaves the world alone. *)
Lemma start_call_inert (f a : value) (w : world) :
  (forall h, f <> VFun (FDispatch h)) ->
  exists w', start (call f a) w = Some w' /\ frame w w' /\ crashed w' = crashed w.
Proof.
  intros Hf. unfold start.
  assert (Hadv : exists r, call f a = r /\ advance r w = Some ([], w)).
  { destruct f as [| | | | | | |[h|c]]; simpl; eauto.
    exfalso. apply (Hf h). reflexivity. }
  destruct Hadv as (r & -> & Hadv). rewrite Hadv. simpl.
  eexists. split; [reflexivity|]. split; [|reflexivity].
  repeat split; simpl. apply app_nil_r.
Qed.

(** A call of the dispatcher of a mounted cell with a value that is not a
    function stores that value. *)
Lemma start_call_dispatch (h : hook) (old v : value) (w : world) :
  cells w h = Some old -> is_function v = false ->
  exists w', start (call (VFun (FDispatch h)) v) w = Some w' /\
    cells w' h = Some v /\
    (forall h', h' <> h -> cells w' h' = cells w h') /\
    calls w' = (calls w ++ [(h, v)])%list /\
    effect_deps w' = effect_deps w /\ scheduled w' = scheduled w /\
    pending w' = pending w /\ crashed w' = crashed w.
Proof.
  intros Hc Hv. unfold start. simpl. unfold dispatch. rewrite Hc.
  rewrite (reducer_plain old v Hv). simpl.
  eexists. split; [reflexivity|]. simpl.
  assert (Hh : hook_eqb h h = true) by (destruct h; reflexivity).
  rewrite Hh. repeat split; auto using app_nil_r.
  intros h' Hne. destruct h', h; simpl; try reflexivity; congruence.
Qed.

End Basics.

(** ** The counter provider *)

Section Counter.

Local Open Scope js_scope.

Lemma count_hooks_mounted (w : world) (v : value) :
  cells w HCount = Some v -> CountProvider_value w = Ok (count_context v, w).
Proof.
  intros H. unfold CountProvider_value, useState. simpl. rewrite H. reflexivity.
Qed.

Lemma count_hooks_fresh (w : world) :
  cells w HCount = None ->
  CountProvider_value w
  = Ok (count_context (VNum 100), set_cell HCount (VNum 100) w).
Proof.
  intros H. unfold CountProvider_value, useState. simpl. rewrite H. reflexivity.
Qed.

Lemma count_render_mounted (children : consumer) (e : env) (w : world) (v : value) :
  cells w HCount = Some v ->
  CountProvider children e w
  = provide CountContext (count_context v) children e w.
Proof.
  intros H. unfold CountProvider. simpl.
  rewrite (count_hooks_mounted w v H). reflexivity.
Qed.

Lemma view_count (children : consumer) (w : world) (v : value) :
  cells w HCount = Some v ->
  view (CountProvider children) w = children [(CountContext, count_context v)].
Proof.
  intros H. unfold view. rewrite (count_render_mounted children [] w v H).
  unfold provide. destruct (children _); reflexivity.
Qed.

Lemma paint_count (children : consumer) (w : world) (v : value) :
  cells w HCount = Some v -> scheduled w = [] ->
  exists w', paint (CountProvider children) w = Some w' /\ frame w w'.
Proof.
  intros H Hs. unfold paint.
  rewrite (count_render_mounted children [] w v H). unfold provide.
  destruct (children _) as [nodes|err].
  - destruct (commit_idle w Hs) as (w' & Hc & Hf & _). eauto.
  - eexists. split; [reflexivity|]. apply frame_crash.
Qed.

(** Mounting allocates the cell with 100, unless the subtree throws. *)
Lemma mount_count (children : consumer) :
  exists w0, mount (CountProvider children) = Some w0 /\
    scheduled w0 = [] /\ pending w0 = [] /\ calls w0 = [] /\
    effect_deps w0 = None /\
    match children [(CountContext, count_context (VNum 100))] with
    | Ok _ => cells w0 HCount = Some (VNum 100) /\ crashed w0 = None
    | Throw e => cells w0 HCount = None /\ crashed w0 = Some e
    end.
Proof.
  unfold mount, paint, CountProvider. simpl.
  unfold provide. fold (count_context (VNum 100)).
  destruct (children _) as [nodes|err]; simpl;
    eexists; (split; [reflexivity|]); simpl; repeat split; reflexivity.
Qed.

(** What a click can do to the world. *)
Lemma start_call_cases (f a : value) (w w1 : world) :
  start (call f a) w = Some w1 ->
  scheduled w1 = scheduled w /\ pending w1 = pending w /\
  effect_deps w1 = effect_deps w /\ crashed w1 = crashed w /\
  ((cells w1 = cells w /\ calls w1 = calls w) \/
   (exists h, f = VFun (FDispatch h) /\
      calls w1 = (calls w ++ [(h, a)])%list /\
      forall h', cells w h' <> None -> cells w1 h' <> None)).
Proof.
  intros H.
  assert (Hd : (exists h, f = VFun (FDispatch h)) \/ (forall h, f <> VFun (FDispatch h))).
  { destruct f as [| | | | | | |[h|c]]; try (right; intros h'; discriminate).
    left. eauto. }
  destruct Hd as [(h & ->)|Hinert].
  - unfold start in H. simpl in H. unfold dispatch in H.
    destruct (cells w h) as [state|] eqn:Hc; simpl in H.
    + destruct (basicStateReducer state a) as [next|]; simpl in H; [|discriminate].
      inversion H; subst; clear H. simpl.
      repeat split; auto using app_nil_r.
      right. exists h. repeat split.
      intros h' Hn. destruct (hook_eqb h' h); [discriminate|exact Hn].
    + inversion H; subst; clear H. simpl.
      repeat split; auto using app_nil_r.
      right. exists h. repeat split. auto.
  - destruct (start_call_inert f a w Hinert) as (w' & Hs & (F1 & F2 & F3 & F4 & F5) & Hcr).
    rewrite H in Hs. inversion Hs; subst. repeat split; auto.
Qed.

Lemma step_steady (net : network) (children : consumer)
      (log : list (hook * value)) (v : value) (w w' : world) (ev : event) :
  steady log v w -> step net (CountProvider children) w ev = Some w' ->
  steady log v w'.
Proof.
  intros (Hs & Hp & Hlen & x & Hc & Hv) H. unfold step in H.
  destruct (crashed w).
  { inversion H; subst. repeat split; eauto. }
  simpl in H.
  destruct (react net (CountProvider children) ev w) as [w1|] eqn:Hr; [|discriminate].
  assert (H1 : steady log v w1).
  { destruct ev; simpl in Hr.
    - inversion Hr; subst. repeat split; eauto.
    - rewrite Hp in Hr. inversion Hr; subst. repeat split; eauto.
    - destruct (view (CountProvider children) w) as [nodes|err];
        [|inversion Hr; subst; repeat split; eauto].
      destruct (nth_error (flat_map handlers nodes) i) as [hd|];
        [|inversion Hr; subst; repeat split; eauto].
      destruct (start_call_cases _ _ _ _ Hr) as (S1 & S2 & _ & _ & Hcase).
      split; [congruence|]. split; [congruence|].
      destruct Hcase as [(E1 & E2)|(h & _ & E2 & E3)].
      + split; [rewrite E2; exact Hlen|].
        exists x. rewrite E1, E2. auto.
      + assert (Hlonger : List.length log < List.length (calls w1)).
        { rewrite E2, length_app. simpl. lia. }
        split; [lia|].
        destruct (cells w1 HCount) as [x1|] eqn:Hc1.
        * exists x1. split; [reflexivity|]. intros Habs.
          rewrite Habs in Hlonger. lia.
        * exfalso. apply (E3 HCount); [congruence|exact Hc1]. }
  destruct H1 as (Hs1 & Hp1 & Hlen1 & x1 & Hc1 & Hv1).
  destruct (paint_count children w1 x1 Hc1 Hs1) as (w2 & Hpaint & F1 & F2 & F3 & F4 & F5).
  rewrite Hpaint in H. inversion H; subst.
  split; [congruence|]. split; [congruence|].
  split; [rewrite F5; exact Hlen1|].
  exists x1. rewrite F1, F5. auto.
Qed.

Lemma run_steady (net : network) (children : consumer)
      (log : list (hook * value)) (v : value) (evs : list event) :
  forall w w', steady log v w ->
    run net (CountProvider children) w evs = Some w' -> steady log v w'.
Proof.
  induction evs as [|ev evs IH]; simpl; intros w w' Hw H.
  - inversion H; subst. exact Hw.
  - destruct (step net (CountProvider children) w ev) as [w1|] eqn:Hstep; [|discriminate].
    eapply IH; [|exact H]. eapply step_steady; eauto.
Qed.

(** Once the tree has crashed, nothing happens to it any more. *)
Lemma run_crashed (net : network) (tree : component) (e : error) (evs : list event) :
  forall w, crashed w = Some e -> run net tree w evs = Some w.
Proof.
  induction evs as [|ev evs IH]; simpl; intros w H; [reflexivity|].
  unfold step. rewrite H. simpl. apply IH. exact H.
Qed.

(** With a subtree that calls no dispatcher, every event keeps the world. *)
Lemma step_count_quiet (net : network) (children : consumer) (w : world) (v : value) (ev : event) :
  setter_free children ->
  cells w HCount = Some v -> scheduled w = [] -> pending w = [] ->
  exists w', step net (CountProvider children) w ev = Some w' /\ frame w w'.
Proof.
  intros Hfree Hc Hs Hp. unfold step.
  destruct (crashed w).
  { exists w. split; [reflexivity|apply frame_refl]. }
  assert (Hr : exists w1, react net (CountProvider children) ev w = Some w1 /\ frame w w1).
  { destruct ev; simpl.
    - exists w. split; [reflexivity|apply frame_refl].
    - rewrite Hp. exists w. split; [reflexivity|apply frame_refl].
    - destruct (view (CountProvider children) w) as [nodes|err] eqn:Hview;
        [|exists w; split; [reflexivity|apply frame_refl]].
      destruct (nth_error (flat_map handlers nodes) i) as [hd|] eqn:Hnth;
        [|exists w; split; [reflexivity|apply frame_refl]].
      rewrite (view_count children w v Hc) in Hview.
      destruct (start_call_inert (callee hd) (argument hd) w) as (w1 & E & F & _).
      { intros h. eapply Hfree; [exact Hview|]. eapply nth_error_In; eauto. }
      eauto. }
  destruct Hr as (w1 & Hr & F). rewrite Hr. simpl.
  destruct F as (F1 & F2 & F3 & F4 & F5).
  destruct (paint_count children w1 v) as (w2 & Hpaint & G); [congruence|congruence|].
  exists w2. split; [exact Hpaint|].
  eapply frame_trans; [|exact G]. repeat split; assumption.
Qed.

Lemma run_count_quiet (net : network) (children : consumer) (evs : list event) :
  setter_free children ->
  forall (w : world) (v : value),
    cells w HCount = Some v -> scheduled w = [] -> pending w = [] ->
    exists w', run net (CountProvider children) w evs = Some w' /\ frame w w'.
Proof.
  intros Hfree. induction evs as [|ev evs IH]; simpl; intros w v Hc Hs Hp.
  - exists w. split; [reflexivity|apply frame_refl].
  - destruct (step_count_quiet net children w v ev Hfree Hc Hs Hp) as (w1 & Hstep & F).
    rewrite Hstep. simpl. pose proof F as (F1 & F2 & F3 & F4 & F5).
    destruct (IH w1 v) as (w2 & Hrun & G); [congruence|congruence|congruence|].
    exists w2. split; [exact Hrun|]. eapply frame_trans; eauto.
Qed.

End Counter.

(** ** The consumers *)

Section Consumers.

Local Open Scope js_scope.

(** A JSX child renders to text only. *)
Lemma render_child_handlers :
  forall v nodes, render_child v = Ok nodes -> flat_map handlers nodes = [].
Proof.
  fix render_child_handlers 1.
  intros v. destruct v as [| | b | n | s | items | fields | f]; simpl; intros nodes H;
    try (inversion H; subst; reflexivity).
  - destruct (String.eqb s ""); inversion H; subst; reflexivity.
  - revert nodes H. induction items as [|item items IH]; simpl; intros nodes H.
    + inversion H; subst. reflexivity.
    + destruct (render_child item) as [here|] eqn:Hitem; simpl in H; [|discriminate].
      destruct (fold_right _ _ items) as [rest|] eqn:Hrest; simpl in H; [|discriminate].
      inversion H; subst. rewrite flat_map_app.
      rewrite (render_child_handlers item here Hitem).
      rewrite (IH rest eq_refl). reflexivity.
Qed.

Lemma CompB_handlers (e : env) (nodes : list node) :
  CompB e = Ok nodes -> flat_map handlers nodes = [].
Proof.
  unfold CompB. simpl.
  destruct (get_prop (useContext CountContext e) "count") as [count|]; simpl; [|discriminate].
  destruct (get_prop (useContext CountContext e) "setCount") as [setCount|]; simpl; [|discriminate].
  destruct (render_child count) as [shown|] eqn:Hshown; simpl; [|discriminate].
  intros H. inversion H; subst. simpl.
  rewrite (render_child_handlers count shown Hshown). reflexivity.
Qed.

Lemma CompB_setter_free : setter_free CompB.
Proof.
  intros e nodes hd h H Hin. rewrite (CompB_handlers e nodes H) in Hin. destruct Hin.
Qed.

Lemma CompA_handlers (e : env) (nodes : list node) :
  CompA e = Ok nodes -> flat_map handlers nodes = [].
Proof.
  unfold CompA. simpl.
  destruct (get_prop (useContext CollegeContext e) "joke") as [joke|]; simpl; [|discriminate].
  destruct (get_prop joke "category") as [guard|]; simpl; [|discriminate].
  destruct (truthy guard); simpl.
  - destruct (render_child guard) as [shown|] eqn:Hshown; simpl; [|discriminate].
    intros H. inversion H; subst. simpl.
    rewrite (render_child_handlers guard shown Hshown). reflexivity.
  - destruct (render_child guard) as [shown|] eqn:Hshown; simpl; [|discriminate].
    intros H. inversion H; subst. simpl.
    rewrite (render_child_handlers guard shown Hshown). reflexivity.
Qed.

Lemma CompA_setter_free : setter_free CompA.
Proof.
  intros e nodes hd h H Hin. rewrite (CompA_handlers e nodes H) in Hin. destruct Hin.
Qed.

End Consumers.

(** ** The joke provider *)

Section Joke.

Local Open Scope js_scope.

Variable net : network.
Variable children : consumer.
Variable nodes0 : list node.

Hypothesis children_free : setter_free children.
Hypothesis children_mount : children [(CollegeContext, joke_context (VStr ""))] = Ok nodes0.

Lemma in_phase_cell (ph : phase) (w : world) :
  in_phase ph w -> cells w HJoke = Some (stored_value ph).
Proof. destruct ph; simpl; intros (_ & _ & H & _); exact H. Qed.

Lemma college_hooks_mounted (w : world) (j : value) :
  cells w HJoke = Some j -> effect_deps w = Some [] ->
  exists w1, CollegeProvider_value w = Ok (joke_context j, w1) /\
    frame w w1 /\ crashed w1 = crashed w.
Proof.
  intros Hc Hd. unfold CollegeProvider_value, useState, useEffect. simpl.
  rewrite Hc, Hd. simpl.
  eexists. split; [reflexivity|]. split; [|reflexivity].
  repeat split; simpl; auto.
Qed.

Lemma view_college (w : world) (j : value) :
  cells w HJoke = Some j -> effect_deps w = Some [] ->
  view (CollegeProvider children) w = children [(CollegeContext, joke_context j)].
Proof.
  intros Hc Hd. unfold view, CollegeProvider. simpl.
  destruct (college_hooks_mounted w j Hc Hd) as (w1 & -> & _).
  unfold provide.
  destruct (children [(CollegeContext, joke_context j)]); reflexivity.
Qed.

Lemma paint_college (w : world) (j : value) :
  cells w HJoke = Some j -> effect_deps w = Some [] -> scheduled w = [] ->
  exists w', paint (CollegeProvider children) w = Some w' /\ frame w w' /\
    match children [(CollegeContext, joke_context j)] with
    | Ok _ => crashed w' = crashed w
    | Throw e => crashed w' = Some e
    end.
Proof.
  intros Hc Hd Hs. unfold paint, CollegeProvider. simpl.
  destruct (college_hooks_mounted w j Hc Hd) as (w1 & -> & F & Hcr).
  unfold provide.
  destruct (children [(CollegeContext, joke_context j)]) as [nodes|err].
  - destruct F as (F1 & F2 & F3 & F4 & F5).
    destruct (commit_idle w1) as (w2 & -> & G & Hcr2); [congruence|].
    exists w2. split; [reflexivity|]. split; [|congruence].
    eapply frame_trans; [|exact G]. repeat split; assumption.
  - eexists. split; [reflexivity|]. split; [apply frame_crash|reflexivity].
Qed.

(** Mounting stores the placeholder and sends the request. *)
Lemma mount_college :
  exists w0, mount (CollegeProvider children) = Some w0 /\ in_phase Requested w0.
Proof.
  unfold mount, paint, CollegeProvider. simpl.
  unfold provide. fold (joke_context (VStr "")). rewrite children_mount.
  eexists. split; [reflexivity|]. repeat split.
Qed.

(** Renders and clicks keep the world. *)
Lemma react_quiet (w : world) (j : value) (ev : event) :
  cells w HJoke = Some j -> effect_deps w = Some [] ->
  ev <> ENetwork \/ pending w = [] ->
  exists w1, react net (CollegeProvider children) ev w = Some w1 /\ frame w w1 /\ crashed w1 = crashed w.
Proof.
  intros Hc Hd Hev.
  destruct ev; simpl.
  - exists w. split; [reflexivity|]. split; [apply frame_refl|reflexivity].
  - destruct Hev as [Hev|Hev]; [congruence|]. rewrite Hev.
    exists w. split; [reflexivity|]. split; [apply frame_refl|reflexivity].
  - destruct (view (CollegeProvider children) w) as [nodes|err] eqn:Hview;
      [|exists w; split; [reflexivity|]; split; [apply frame_refl|reflexivity]].
    destruct (nth_error (flat_map handlers nodes) i) as [hd|] eqn:Hnth;
      [|exists w; split; [reflexivity|]; split; [apply frame_refl|reflexivity]].
    rewrite (view_college w j Hc Hd) in Hview.
    apply start_call_inert.
    intros h. eapply children_free; [exact Hview|]. eapply nth_error_In; eauto.
Qed.

Lemma step_quiet (w : world) (j : value) (ev : event) :
  cells w HJoke = Some j -> effect_deps w = Some [] -> scheduled w = [] ->
  ev <> ENetwork \/ pending w = [] ->
  exists w', step net (CollegeProvider children) w ev = Some w' /\ frame w w' /\
    (crashed w = None ->
     forall nodes, children [(CollegeContext, joke_context j)] = Ok nodes ->
     crashed w' = None).
Proof.
  intros Hc Hd Hs Hev. unfold step.
  destruct (crashed w) eqn:Hcr.
  { exists w. split; [reflexivity|]. split; [apply frame_refl|]. congruence. }
  destruct (react_quiet w j ev Hc Hd Hev) as (w1 & -> & F & Hcr1). simpl.
  pose proof F as (F1 & F2 & F3 & F4 & F5).
  destruct (paint_college w1 j) as (w2 & -> & G & Hcr2);
    [congruence|congruence|congruence|].
  exists w2. split; [reflexivity|]. split; [eapply frame_trans; eauto|].
  intros _ nodes Hn. rewrite Hn in Hcr2. congruence.
Qed.

Lemma in_phase_frame (ph : phase) (w w' : world) :
  in_phase ph w -> frame w w' -> crashed w' = crashed w -> in_phase ph w'.
Proof.
  intros (Hd & Hs & H) (F1 & F2 & F3 & F4 & F5) Hcr.
  split; [congruence|]. split; [congruence|].
  destruct ph; simpl in *; rewrite F1, F4, F5;
    try rewrite Hcr; exact H.
Qed.

Lemma in_phase_frame_stored (d : value) (w w' : world) :
  in_phase (Stored d) w -> frame w w' -> in_phase (Stored d) w'.
Proof.
  intros (Hd & Hs & H) (F1 & F2 & F3 & F4 & F5).
  split; [congruence|]. split; [congruence|].
  simpl in *. rewrite F1, F4, F5. exact H.
Qed.

(** An event other than an answer of the network keeps the phase. *)
Lemma step_phase_quiet (ph : phase) (w : world) (ev : event) :
  in_phase ph w -> ev <> ENetwork \/ pending w = [] ->
  exists w', step net (CollegeProvider children) w ev = Some w' /\ in_phase ph w'.
Proof.
  intros Hph Hev. pose proof Hph as (Hd & Hs & Hrest).
  destruct (step_quiet w (stored_value ph) ev (in_phase_cell ph w Hph) Hd Hs Hev)
    as (w' & Hstep & F & Hcr).
  exists w'. split; [exact Hstep|].
  destruct ph; simpl in Hrest, Hcr.
  - destruct Hrest as (_ & _ & _ & Hnone).
    apply (in_phase_frame Requested w w' Hph F).
    rewrite Hnone. apply (Hcr Hnone nodes0 children_mount).
  - destruct Hrest as (_ & _ & _ & Hnone).
    apply (in_phase_frame (Parsing r) w w' Hph F).
    rewrite Hnone. apply (Hcr Hnone nodes0 children_mount).
  - apply (in_phase_frame_stored d w w' Hph F).
  - destruct Hrest as (_ & _ & _ & Hnone).
    apply (in_phase_frame Dropped w w' Hph F).
    rewrite Hnone. apply (Hcr Hnone nodes0 children_mount).
Qed.

(** The answer to the request: the chain goes on to parse the body, or is
    rejected and dropped. *)
Lemma step_requested (w : world) :
  in_phase Requested w ->
  exists w', step net (CollegeProvider children) w ENetwork = Some w' /\
    in_phase (next_phase net Requested ENetwork) w'.
Proof.
  intros (Hd & Hs & Hc & Hp & Hcalls & Hcr).
  unfold step. rewrite Hcr. simpl. rewrite Hp.
  unfold chain_requested, fetch_joke, fetch. simpl.
  destruct (net joke_url) as [r|err]; simpl.
  - match goal with |- context [paint (CollegeProvider children) ?x] => set (w1 := x) end.
    destruct (paint_college w1 (VStr "")) as (w2 & -> & F & Hcr2); auto.
    rewrite children_mount in Hcr2.
    exists w2. split; [reflexivity|].
    apply (in_phase_frame (Parsing r) w1 w2); [|exact F|exact Hcr2].
    repeat split; auto.
  - match goal with |- context [paint (CollegeProvider children) ?x] => set (w1 := x) end.
    destruct (paint_college w1 (VStr "")) as (w2 & -> & F & Hcr2); auto.
    rewrite children_mount in Hcr2.
    exists w2. split; [reflexivity|].
    apply (in_phase_frame Dropped w1 w2); [|exact F|exact Hcr2].
    repeat split; auto.
Qed.

(** The parsed body: the payload is dispatched to the cell, or the chain is
    rejected and dropped. *)
Lemma step_parsing (r : response) (w : world) :
  in_phase (Parsing r) w ->
  exists w', step net (CollegeProvider children) w ENetwork = Some w' /\
    in_phase (next_phase net (Parsing r) ENetwork) w'.
Proof.
  intros (Hd & Hs & Hc & Hp & Hcalls & Hcr).
  unfold step. rewrite Hcr. simpl. rewrite Hp.
  unfold chain_parsing, response_json. simpl. unfold parse_body.
  destruct (body r) as [j|]; simpl.
  - unfold dispatch. simpl. rewrite Hc.
    rewrite (reducer_plain (VStr "") (of_json j) (of_json_not_function j)). simpl.
    match goal with |- context [paint (CollegeProvider children) ?x] => set (w1 := x) end.
    destruct (paint_college w1 (of_json j)) as (w2 & -> & F & _); auto.
    exists w2. split; [reflexivity|].
    apply (in_phase_frame_stored (of_json j) w1 w2); [|exact F].
    repeat split; auto. simpl. rewrite Hcalls. reflexivity.
  - match goal with |- context [paint (CollegeProvider children) ?x] => set (w1 := x) end.
    destruct (paint_college w1 (VStr "")) as (w2 & -> & F & Hcr2); auto.
    rewrite children_mount in Hcr2.
    exists w2. split; [reflexivity|].
    apply (in_phase_frame Dropped w1 w2); [|exact F|exact Hcr2].
    repeat split; auto.
Qed.

(** Every event takes a mounted joke provider from a phase to the next. *)
Lemma step_phase (ph : phase) (w : world) (ev : event) :
  in_phase ph w ->
  exists w', step net (CollegeProvider children) w ev = Some w' /\ in_phase (next_phase net ph ev) w'.
Proof.
  intros Hph.
  destruct ev.
  - apply (step_phase_quiet ph w ERender Hph). left. discriminate.
  - destruct ph.
    + apply step_requested. exact Hph.
    + apply step_parsing. exact Hph.
    + apply (step_phase_quiet (Stored d) w ENetwork Hph).
      right. destruct Hph as (_ & _ & _ & Hp & _). exact Hp.
    + apply (step_phase_quiet Dropped w ENetwork Hph).
      right. destruct Hph as (_ & _ & _ & Hp & _). exact Hp.
  - apply (step_phase_quiet ph w (EClick i) Hph). left. discriminate.
Qed.

Lemma run_phase (evs : list event) :
  forall (ph : phase) (w : world),
    in_phase ph w ->
    exists w', run net (CollegeProvider children) w evs = Some w' /\
      in_phase (fold_left (next_phase net) evs ph) w'.
Proof.
  induction evs as [|ev evs IH]; simpl; intros ph w Hph.
  - exists w. split; [reflexivity|exact Hph].
  - destruct (step_phase ph w ev Hph) as (w1 & -> & H1). simpl.
    apply IH. exact H1.
Qed.

Lemma lifetime_phase (evs : list event) :
  exists w, lifetime net (CollegeProvider children) evs = Some w /\
    in_phase (fold_left (next_phase net) evs Requested) w.
Proof.
  unfold lifetime. destruct mount_college as (w0 & -> & H0). simpl.
  apply run_phase. exact H0.
Qed.

End Joke.

(** ** Properties of the counter provider *)

Section CounterClaims.

Local Open Scope js_scope.

Lemma exposed_count (w : world) :
  exposed CountProvider_value w
  = Ok (count_context (match cells w HCount with Some v => v | None => VNum 100 end)).
Proof.
  unfold exposed. destruct (cells w HCount) as [v|] eqn:H.
  - rewrite (count_hooks_mounted w v H). reflexivity.
  - rewrite (count_hooks_fresh w H). reflexivity.
Qed.

(** A reachable world of a counter tree whose cell is allocated has nothing
    scheduled and nothing waiting. *)
Lemma lifetime_count_idle (net : network) (children : consumer)
      (evs : list event) (w : world) (v : value) :
  lifetime net (CountProvider children) evs = Some w ->
  cells w HCount = Some v ->
  scheduled w = [] /\ pending w = [].
Proof.
  unfold lifetime. intros H Hc.
  destruct (mount_count children) as (w0 & Hm & Hs & Hp & Hcalls & _ & Hkids).
  rewrite Hm in H. simpl in H.
  destruct (children [(CountContext, count_context (VNum 100))]) as [nodes|err].
  - destruct Hkids as (Hc0 & _).
    assert (St : steady [] (VNum 100) w0).
    { repeat split; auto. simpl; lia. exists (VNum 100). auto. }
    destruct (run_steady net children [] (VNum 100) evs w0 w St H) as (A & B & _).
    auto.
  - destruct Hkids as (Hc0 & Hcr).
    rewrite (run_crashed net (CountProvider children) err evs w0 Hcr) in H.
    inversion H; subst. congruence.
Qed.

(** C1. Whatever the subtree and whatever happens to the mounted tree, as
    long as no dispatcher has been called: the counter provider renders any
    subtree under an object whose [count] is 100, the cell of a mounted
    tree holds 100, and CompB rendered inside the provider shows "100",
    on the first render as later. *)
Theorem count_provider_initial_100
    (net : network) (children : consumer) (evs : list event) (w : world)
    (above : env) :
  lifetime net (CountProvider children) evs = Some w ->
  calls w = [] ->
  exists ctx,
    exposed CountProvider_value w = Ok ctx /\
    get_prop ctx "count" = Ok (VNum 100) /\
    (forall c e, exists w1,
        CountProvider c e w = provide CountContext ctx c e w1) /\
    (crashed w = None -> count_value w = VNum 100) /\
    view (CountProvider CompB) w = Ok [NElem "div" plain [NText "100"]] /\
    (exists w0, mount (CountProvider CompB) = Some w0 /\
       count_value w0 = VNum 100 /\
       view (CountProvider CompB) w0 = Ok [NElem "div" plain [NText "100"]]) /\
    CompB ((CountContext, ctx) :: above)
    = Ok [NElem "div" plain [NText "100"]].
Proof.
  unfold lifetime. intros H Hcalls.
  exists (count_context (VNum 100)).
  destruct (mount_count children) as (w0 & Hm & Hs & Hp & Hcalls0 & _ & Hkids).
  rewrite Hm in H. simpl in H.
  assert (Hcell : (cells w HCount = Some (VNum 100) \/
                   (cells w HCount = None /\ crashed w <> None))).
  { destruct (children [(CountContext, count_context (VNum 100))]) as [nodes|err].
    - destruct Hkids as (Hc0 & _).
      assert (St : steady [] (VNum 100) w0).
      { repeat split; auto. simpl; lia. exists (VNum 100). auto. }
      destruct (run_steady net children [] (VNum 100) evs w0 w St H)
        as (_ & _ & _ & x & Hx & Hv).
      left. rewrite Hx, (Hv Hcalls). reflexivity.
    - destruct Hkids as (Hc0 & Hcr).
      rewrite (run_crashed net (CountProvider children) err evs w0 Hcr) in H.
      inversion H; subst. right. split; [exact Hc0|]. rewrite Hcr. discriminate. }
  assert (Hhooks : exists w1,
             CountProvider_value w = Ok (count_context (VNum 100), w1)).
  { destruct Hcell as [Hc|(Hc & _)].
    - exists w. apply count_hooks_mounted. exact Hc.
    - eexists. apply count_hooks_fresh. exact Hc. }
  destruct Hhooks as (w1 & Hhooks).
  split; [unfold exposed; rewrite Hhooks; reflexivity|].
  split; [reflexivity|].
  split.
  { intros c e. exists w1. unfold CountProvider. simpl. rewrite Hhooks. reflexivity. }
  split.
  { intros Hcr. destruct Hcell as [Hc|(_ & Hne)]; [|contradiction].
    unfold count_value. rewrite Hc. reflexivity. }
  split.
  { unfold view, CountProvider. simpl. rewrite Hhooks. reflexivity. }
  split; [|reflexivity].
  eexists. split; [reflexivity|]. split; reflexivity.
Qed.

Lemma count_provider_initial_100_witness :
  exists w,
    lifetime quiet_net (CountProvider CompB) [ERender; EClick 0; ENetwork] = Some w /\
    calls w = [] /\
    exists ctx,
      exposed CountProvider_value w = Ok ctx /\
      get_prop ctx "count" = Ok (VNum 100) /\
      count_value w = VNum 100 /\
      view (CountProvider CompB) w = Ok [NElem "div" plain [NText "100"]].
Proof.
  eexists. split; [vm_compute; reflexivity|]. split; [reflexivity|].
  destruct (count_provider_initial_100 quiet_net CompB
              [ERender; EClick 0; ENetwork] _ []
              ltac:(vm_compute; reflexivity) eq_refl)
    as (ctx & H1 & H2 & _ & H4 & H5 & _).
  exists ctx. split; [exact H1|]. split; [exact H2|].
  split; [apply H4; reflexivity|exact H5].
Defined.

(** C8. In the tree of App no event ever calls a dispatcher: the log of
    calls stays empty, the counter is 100 and "100" is on screen during the
    whole life of the mount; CompB renders no click handler at all. *)
Theorem app_counter_stays_100 (net : network) (evs : list event) :
  exists w,
    lifetime net App evs = Some w /\
    calls w = [] /\
    count_value w = VNum 100 /\
    exposed CountProvider_value w = Ok (count_context (VNum 100)) /\
    view App w = Ok [NElem "div" plain [NText "100"]] /\
    (forall e nodes, CompB e = Ok nodes -> flat_map handlers nodes = []).
Proof.
  unfold lifetime, App.
  destruct (mount_count CompB) as (w0 & Hm & Hs & Hp & Hcalls & _ & Hkids).
  rewrite Hm. simpl. simpl in Hkids. destruct Hkids as (Hc0 & _).
  destruct (run_count_quiet net CompB evs CompB_setter_free w0 (VNum 100) Hc0 Hs Hp)
    as (w & Hrun & F1 & F2 & F3 & F4 & F5).
  exists w. split; [exact Hrun|].
  assert (Hc : cells w HCount = Some (VNum 100)) by congruence.
  split; [congruence|].
  split; [unfold count_value; rewrite Hc; reflexivity|].
  split; [rewrite exposed_count, Hc; reflexivity|].
  split; [rewrite (view_count CompB w (VNum 100) Hc); reflexivity|].
  exact CompB_handlers.
Qed.

(** C3, as the code has it. For every value [v] that is not a function,
    calling the setter the counter provider exposes stores [v] unchanged,
    and every consumer under the provider reads [v] from then on. *)
Theorem setter_stores_plain_value
    (net : network) (children : consumer) (evs : list event)
    (w : world) (old v : value) :
  lifetime net (CountProvider children) evs = Some w ->
  cells w HCount = Some old ->
  is_function v = false ->
  stores_verbatim net children w v.
Proof.
  intros Hlife Hc Hv.
  destruct (lifetime_count_idle net children evs w old Hlife Hc) as (Hs & Hp).
  destruct (start_call_dispatch HCount old v w Hc Hv)
    as (w1 & Hstart & Hc1 & _ & Hcalls1 & _ & Hs1 & Hp1 & _).
  exists (count_context old), (VFun (FDispatch HCount)), w1.
  split; [rewrite exposed_count, Hc; reflexivity|].
  split; [reflexivity|].
  split; [exact Hstart|].
  split; [exact Hcalls1|].
  intros evs2 w2 Hrun Hsame.
  assert (St : steady (calls w1) v w1).
  { split; [congruence|]. split; [congruence|]. split; [lia|].
    exists v. auto. }
  destruct (run_steady net children (calls w1) v evs2 w1 w2 St Hrun)
    as (_ & _ & _ & x & Hx & Hxv).
  rewrite (Hxv Hsame) in Hx.
  split; [unfold count_value; rewrite Hx; reflexivity|].
  split; [rewrite exposed_count, Hx; reflexivity|].
  split; [intros c e; apply count_render_mounted; exact Hx|].
  split; [rewrite (view_count CompB w2 v Hx); reflexivity|].
  intros above. reflexivity.
Qed.

Lemma setter_stores_plain_value_witness :
  exists w,
    lifetime quiet_net (CountProvider CompB) [ERender] = Some w /\
    cells w HCount = Some (VNum 100) /\
    is_function (VNum 42) = false /\
    stores_verbatim quiet_net CompB w (VNum 42).
Proof.
  eexists. split; [vm_compute; reflexivity|].
  split; [reflexivity|]. split; [reflexivity|].
  eapply (setter_stores_plain_value quiet_net CompB [ERender] _ (VNum 100) (VNum 42));
    [vm_compute; reflexivity | reflexivity | reflexivity].
Defined.

(** C3, as stated, fails at a function: called with the arrow function
    [() => 42] on a freshly mounted App, the setter applies it as an
    updater and stores 42, not the function. *)
Lemma setter_applies_updater :
  lifetime quiet_net App [] = Some (set_cell HCount (VNum 100) initial_world) /\
  ~ stores_verbatim quiet_net CompB
      (set_cell HCount (VNum 100) initial_world) (VFun (FConst (VNum 42))).
Proof.
  split; [reflexivity|].
  intros (ctx & setCount & w1 & He & Hg & Hs & _ & Hafter).
  destruct (Hafter [] w1 eq_refl eq_refl) as (Hcv & _).
  vm_compute in He. inversion He; subst ctx.
  vm_compute in Hg. inversion Hg; subst setCount.
  vm_compute in Hs. inversion Hs; subst w1.
  vm_compute in Hcv. discriminate Hcv.
Qed.

End CounterClaims.

(** ** What the providers expose, and consumers without a provider *)

Section Exposure.

Local Open Scope js_scope.

Lemma exposed_college (w : world) :
  exposed CollegeProvider_value w
  = Ok (joke_context (match cells w HJoke with Some j => j | None => VStr "" end)).
Proof.
  unfold exposed, CollegeProvider_value, useState, useEffect. simpl.
  destruct (cells w HJoke); reflexivity.
Qed.

Lemma joke_context_fields (j : value) (k : string) :
  get_prop (joke_context j) k = Ok (if String.eqb k "joke" then j else VUndefined).
Proof. simpl. destruct (String.eqb k "joke"); reflexivity. Qed.

(** C2, as stated, fails for the joke provider: on its first render the
    object it exposes has no field that holds the dispatcher of its cell. *)
Lemma joke_provider_hides_setter :
  ~ exposes_pair CollegeProvider_value HJoke initial_world.
Proof.
  intros (ctx & w1 & v & kv & ks & H & _ & _ & Hks).
  vm_compute in H. inversion H; subst ctx.
  fold (joke_context (VStr "")) in Hks. rewrite joke_context_fields in Hks.
  destruct (String.eqb ks "joke"); discriminate Hks.
Qed.

(** C2, as the code has it. In every world the counter provider exposes
    the pair [{count, setCount}] of its cell and the dispatcher of its cell,
    while the joke provider exposes [{joke}], the cell alone: any other
    field of that object reads as undefined.  Each provider renders its
    subtree under exactly the object it exposes. *)
Theorem providers_exposed_values (w : world) (children : consumer) (e : env) :
  exposes_pair CountProvider_value HCount w /\
  exposed CountProvider_value w
  = Ok (count_context (match cells w HCount with Some v => v | None => VNum 100 end)) /\
  exposed CollegeProvider_value w
  = Ok (joke_context (match cells w HJoke with Some j => j | None => VStr "" end)) /\
  (forall j k, k <> "joke" -> get_prop (joke_context j) k = Ok VUndefined) /\
  (exists ctx w1, CountProvider_value w = Ok (ctx, w1) /\
     CountProvider children e w = provide CountContext ctx children e w1) /\
  (exists ctx w1, CollegeProvider_value w = Ok (ctx, w1) /\
     CollegeProvider children e w = provide CollegeContext ctx children e w1).
Proof.
  split.
  { destruct (cells w HCount) as [v|] eqn:Hc.
    - exists (count_context v), w, v, "count", "setCount".
      rewrite (count_hooks_mounted w v Hc). repeat split; auto.
    - exists (count_context (VNum 100)), (set_cell HCount (VNum 100) w),
        (VNum 100), "count", "setCount".
      rewrite (count_hooks_fresh w Hc). repeat split; auto. }
  split; [apply exposed_count|].
  split; [apply exposed_college|].
  split.
  { intros j k Hk. rewrite joke_context_fields.
    destruct (String.eqb k "joke") eqn:E; [|reflexivity].
    apply String.eqb_eq in E. contradiction. }
  split.
  - unfold CountProvider. simpl.
    destruct (CountProvider_value w) as [[ctx w1]|err] eqn:H.
    + exists ctx, w1. split; reflexivity.
    + pose proof (exposed_count w) as Hex. unfold exposed in Hex.
      rewrite H in Hex. discriminate Hex.
  - unfold CollegeProvider. simpl.
    destruct (CollegeProvider_value w) as [[ctx w1]|err] eqn:H.
    + exists ctx, w1. split; reflexivity.
    + pose proof (exposed_college w) as Hex. unfold exposed in Hex.
      rewrite H in Hex. discriminate Hex.
Qed.

(** C5. A consumer rendered with no provider of its context above it reads
    [undefined] from [useContext] and throws a TypeError when it
    destructures the first field; nothing catches the error, which reaches
    the root and unmounts the tree. *)
Theorem consumer_without_provider_throws (c : consumer) (k : context) (e : env) :
  reads c k ->
  nearest k e = None ->
  useContext k e = VUndefined /\
  exists msg,
    c e = Throw (TypeError msg) /\
    forall w, view (fun _ => bare c e) w = Throw (TypeError msg) /\
              paint (fun _ => bare c e) w = Some (crash (TypeError msg) w) /\
              crashed (crash (TypeError msg) w) = Some (TypeError msg).
Proof.
  intros Hreads Hnone.
  assert (Hctx : useContext k e = VUndefined).
  { unfold useContext. rewrite Hnone. reflexivity. }
  split; [exact Hctx|].
  destruct Hreads.
  - eexists. split.
    + unfold CompA. rewrite Hctx. reflexivity.
    + intros w. unfold view, paint, bare, CompA. rewrite Hctx. simpl.
      repeat split.
  - eexists. split.
    + unfold CompB. rewrite Hctx. reflexivity.
    + intros w. unfold view, paint, bare, CompB. rewrite Hctx. simpl.
      repeat split.
Qed.

Lemma consumer_without_provider_throws_witness :
  reads CompA CollegeContext /\
  nearest CollegeContext [(CountContext, count_context (VNum 100))] = None /\
  exists msg,
    CompA [(CountContext, count_context (VNum 100))] = Throw (TypeError msg).
Proof.
  split; [constructor|]. split; [reflexivity|].
  destruct (consumer_without_provider_throws CompA CollegeContext
              [(CountContext, count_context (VNum 100))]
              reads_CompA eq_refl) as (_ & msg & H & _).
  exists msg. exact H.
Defined.

(** C10. On the themes "light" and "dark" the argument Navbar's click
    handler passes to [setTheme] is an involution that stays within the two
    themes; it is what the button rendered by Navbar calls the setter
    with. *)
Theorem next_theme_involution (theme setTheme : value) (above : env) :
  theme = VStr "light" \/ theme = VStr "dark" ->
  next_theme (next_theme theme) = theme /\
  (next_theme theme = VStr "light" \/ next_theme theme = VStr "dark") /\
  exists nodes,
    Navbar ((ThemeContext, VObj [("theme", theme); ("setTheme", setTheme)]) :: above)
    = Ok nodes /\
    flat_map handlers nodes = [Handler setTheme (next_theme theme)].
Proof.
  intros [-> | ->].
  - split; [reflexivity|]. split; [right; reflexivity|].
    eexists. split; reflexivity.
  - split; [reflexivity|]. split; [left; reflexivity|].
    eexists. split; reflexivity.
Qed.

Lemma next_theme_involution_witness :
  next_theme (next_theme (VStr "dark")) = VStr "dark" /\
  (next_theme (VStr "dark") = VStr "light" \/ next_theme (VStr "dark") = VStr "dark").
Proof.
  destruct (next_theme_involution (VStr "dark") (VFun (FDispatch HTheme)) []
              (or_intror eq_refl)) as (H1 & H2 & _).
  split; assumption.
Defined.

End Exposure.

(** ** Properties of the joke provider *)

Section JokeClaims.

Local Open Scope js_scope.

Variable net : network.

Lemma phases_stored (d : value) (evs : list event) :
  fold_left (next_phase net) evs (Stored d) = Stored d.
Proof.
  induction evs as [|ev evs IH]; simpl; [reflexivity|].
  destruct ev; simpl; exact IH.
Qed.

Lemma phases_dropped (evs : list event) :
  fold_left (next_phase net) evs Dropped = Dropped.
Proof.
  induction evs as [|ev evs IH]; simpl; [reflexivity|].
  destruct ev; simpl; exact IH.
Qed.

Lemma phases_no_answer (evs : list event) :
  forall ph, count_network evs = 0 -> fold_left (next_phase net) evs ph = ph.
Proof.
  induction evs as [|ev evs IH]; simpl; intros ph H; [reflexivity|].
  destruct ev; try discriminate H; simpl; rewrite (IH _ H); destruct ph; reflexivity.
Qed.

Lemma phases_early (evs : list event) :
  count_network evs < 2 -> unstored (fold_left (next_phase net) evs Requested).
Proof.
  induction evs as [|ev evs IH]; simpl; intros H; [exact I|].
  destruct ev; simpl; auto.
  assert (H0 : count_network evs = 0) by lia.
  rewrite (phases_no_answer evs _ H0).
  destruct (net joke_url); exact I.
Qed.

(** With a response whose body parses, the payload is stored at the second
    answer. *)
Lemma phases_success (r : response) (j : json) (evs : list event) :
  net joke_url = Ok r -> body r = Some j ->
  fold_left (next_phase net) evs Requested
  = match count_network evs with
    | 0 => Requested
    | 1 => Parsing r
    | _ => Stored (of_json j)
    end.
Proof.
  intros Hnet Hbody.
  assert (Hparsing : forall evs',
             fold_left (next_phase net) evs' (Parsing r)
             = match count_network evs' with
               | 0 => Parsing r
               | _ => Stored (of_json j)
               end).
  { induction evs' as [|ev evs' IH]; simpl; [reflexivity|].
    destruct ev; simpl; try exact IH.
    rewrite Hbody. apply phases_stored. }
  induction evs as [|ev evs IH]; simpl; [reflexivity|].
  destruct ev; simpl; try exact IH.
  rewrite Hnet. apply Hparsing.
Qed.

(** With a failed request or a body that does not parse, nothing is ever
    stored. *)
Lemma phases_failure (evs : list event) :
  (exists e, net joke_url = Throw e) \/
  (exists r, net joke_url = Ok r /\ body r = None) ->
  unstored (fold_left (next_phase net) evs Requested).
Proof.
  intros Hfail.
  assert (Hparsing : forall evs' r, body r = None ->
             unstored (fold_left (next_phase net) evs' (Parsing r))).
  { induction evs' as [|ev evs' IH]; simpl; intros r Hr; [exact I|].
    destruct ev; simpl; auto.
    rewrite Hr, phases_dropped. exact I. }
  induction evs as [|ev evs IH]; simpl; [exact I|].
  destruct ev; simpl; auto.
  destruct Hfail as [(e & He)|(r & Hr & Hb)].
  - rewrite He, phases_dropped. exact I.
  - rewrite Hr. apply Hparsing. exact Hb.
Qed.

Lemma in_phase_unstored (ph : phase) (w : world) :
  unstored ph -> in_phase ph w ->
  cells w HJoke = Some (VStr "") /\ calls w = [] /\ crashed w = None.
Proof.
  destruct ph; simpl; intros Hu (_ & _ & H); try contradiction;
    destruct H as (H1 & _ & H3 & H4); auto.
Qed.

End JokeClaims.

Section JokeTheorems.

Local Open Scope js_scope.

Lemma CompA_placeholder :
  CompA [(CollegeContext, joke_context (VStr ""))]
  = Ok [NElem "div" plain [NElem "h1" plain [NText "Joke of the day"]]].
Proof. reflexivity. Qed.



(** C6. With a subtree that renders and calls no dispatcher, and a request
    that fails or a body that is not well-formed JSON: the rejection is
    handled by nothing and the setter is never called, so that during the
    whole mount the provider exposes [{joke: ""}], an object with no other
    field, and the tree stays mounted. *)
Theorem joke_failure_leaves_placeholder
    (net : network) (children : consumer) (nodes0 : list node) (evs : list event) :
  setter_free children ->
  children [(CollegeContext, joke_context (VStr ""))] = Ok nodes0 ->
  (exists e, net joke_url = Throw e) \/
  (exists r, net joke_url = Ok r /\ body r = None) ->
  exists w,
    lifetime net (CollegeProvider children) evs = Some w /\
    calls w = [] /\
    joke_value w = VStr "" /\
    exposed CollegeProvider_value w = Ok (joke_context (VStr "")) /\
    (forall k, k <> "joke" -> get_prop (joke_context (VStr "")) k = Ok VUndefined) /\
    crashed w = None /\
    (2 <= count_network evs -> pending w = []).
Proof.
  intros Hfree Hmount Hfail.
  destruct (lifetime_phase net children nodes0 Hfree Hmount evs) as (w & Hlife & Hph).
  exists w. split; [exact Hlife|].
  pose proof (phases_failure net evs Hfail) as Hun.
  destruct (in_phase_unstored _ w Hun Hph) as (Hcell & Hcalls & Hcr).
  split; [exact Hcalls|].
  split; [unfold joke_value; rewrite Hcell; reflexivity|].
  split; [rewrite exposed_college, Hcell; reflexivity|].
  split.
  { intros k Hk. rewrite joke_context_fields.
    destruct (String.eqb k "joke") eqn:E; [|reflexivity].
    apply String.eqb_eq in E. contradiction. }
  split; [exact Hcr|].
  intros Htwo.
  destruct (fold_left (next_phase net) evs Requested) as [| r | d |] eqn:Efold;
    simpl in Hun; try contradiction.
  - exfalso. revert Efold. clear - Htwo.
    assert (G : forall evs0, 1 <= count_network evs0 ->
                fold_left (next_phase net) evs0 Requested <> Requested).
    { induction evs0 as [|ev evs0 IH]; simpl; intros H; [lia|].
      destruct ev; simpl; auto.
      destruct (net joke_url) as [r|e].
      - clear. induction evs0 as [|ev evs0 IH] in r |- *; simpl; [discriminate|].
        destruct ev; simpl; auto.
        destruct (body r); [rewrite phases_stored|rewrite phases_dropped]; discriminate.
      - rewrite phases_dropped. discriminate. }
    apply G. lia.
  - exfalso. revert Efold. clear - Htwo.
    assert (P : forall evs0 r0 r1, 1 <= count_network evs0 ->
                fold_left (next_phase net) evs0 (Parsing r0) <> Parsing r1).
    { induction evs0 as [|ev evs0 IH]; simpl; intros r0 r1 H; [lia|].
      destruct ev; simpl; auto.
      destruct (body r0); [rewrite phases_stored|rewrite phases_dropped]; discriminate. }
    revert Htwo. induction evs as [|ev evs IH]; simpl; intros H; [lia|].
    destruct ev; simpl; auto.
    destruct (net joke_url) as [r0|e].
    + apply P. lia.
    + rewrite phases_dropped. discriminate.
  - destruct Hph as (_ & _ & _ & Hp & _). exact Hp.
Qed.

Lemma joke_failure_leaves_placeholder_witness :
  exists w,
    lifetime garbled (CollegeProvider CompA) [ENetwork; ENetwork; ERender] = Some w /\
    calls w = [] /\ joke_value w = VStr "".
Proof.
  destruct (joke_failure_leaves_placeholder garbled CompA _
              [ENetwork; ENetwork; ERender]
              CompA_setter_free CompA_placeholder
              (or_intror (ex_intro _ {| status := 200; body := None |}
                                   (conj eq_refl eq_refl))))
    as (w & Hlife & Hcalls & Hjoke & _).
  exists w. auto.
Defined.

(** C7. CompA under the joke provider, with a network that answers with
    the payload [{category: "Programming"}]: once the environment has
    delivered the response and its parsed body, and for ever after, the
    screen shows the title and a second heading whose text is
    "Category: Programming". *)
Theorem CompA_shows_category (net : network) (r : response) (evs : list event) :
  net joke_url = Ok r ->
  body r = Some programming ->
  2 <= count_network evs ->
  exists w h2,
    lifetime net (CollegeProvider CompA) evs = Some w /\
    view (CollegeProvider CompA) w
    = Ok [NElem "div" plain [NElem "h1" plain [NText "Joke of the day"]; h2]] /\
    tags h2 = ["h2"] /\
    text_content h2 = "Category: Programming".
Proof.
  intros Hnet Hbody Htwo.
  destruct (lifetime_phase net CompA _ CompA_setter_free CompA_placeholder evs)
    as (w & Hlife & Hph).
  rewrite (phases_success net r programming evs Hnet Hbody) in Hph.
  destruct (count_network evs) as [|[|n]]; [lia|lia|].
  destruct Hph as (Hd & _ & Hc & _).
  exists w, (NElem "h2" plain [NText "Category: "; NText "Programming"]).
  split; [exact Hlife|].
  split; [rewrite (view_college CompA w _ Hc Hd); reflexivity|].
  split; reflexivity.
Qed.

Lemma CompA_shows_category_witness :
  exists w h2,
    lifetime (answering programming) (CollegeProvider CompA)
      [ERender; ENetwork; ENetwork] = Some w /\
    view (CollegeProvider CompA) w
    = Ok [NElem "div" plain [NElem "h1" plain [NText "Joke of the day"]; h2]] /\
    text_content h2 = "Category: Programming".
Proof.
  destruct (CompA_shows_category (answering programming)
              {| status := 200; body := Some programming |}
              [ERender; ENetwork; ENetwork] eq_refl eq_refl
              (le_n 2))
    as (w & h2 & Hlife & Hview & _ & Htext).
  exists w, h2. auto.
Defined.

(** C9. CompA under the joke provider, whatever the network answers:
    before the second answer of the environment the tree is mounted and has
    thrown nothing, the joke is the empty string, whose [category] reads as
    undefined, a falsy guard, and the screen shows the title alone. *)
Theorem CompA_safe_before_fetch (net : network) (evs : list event) :
  count_network evs < 2 ->
  exists w,
    lifetime net (CollegeProvider CompA) evs = Some w /\
    crashed w = None /\
    joke_value w = VStr "" /\
    get_prop (joke_value w) "category" = Ok VUndefined /\
    truthy VUndefined = false /\
    view (CollegeProvider CompA) w
    = Ok [NElem "div" plain [NElem "h1" plain [NText "Joke of the day"]]].
Proof.
  intros Hearly.
  destruct (lifetime_phase net CompA _ CompA_setter_free CompA_placeholder evs)
    as (w & Hlife & Hph).
  pose proof (phases_early net evs Hearly) as Hun.
  destruct (in_phase_unstored _ w Hun Hph) as (Hcell & _ & Hcr).
  pose proof Hph as (Hd & _).
  exists w. split; [exact Hlife|]. split; [exact Hcr|].
  unfold joke_value. rewrite Hcell.
  split; [reflexivity|]. split; [reflexivity|]. split; [reflexivity|].
  rewrite (view_college CompA w _ Hcell Hd). reflexivity.
Qed.

Lemma CompA_safe_before_fetch_witness :
  exists w,
    lifetime (answering programming) (CollegeProvider CompA)
      [ERender; ENetwork; EClick 0] = Some w /\
    crashed w = None /\
    view (CollegeProvider CompA) w
    = Ok [NElem "div" plain [NElem "h1" plain [NText "Joke of the day"]]].
Proof.
  destruct (CompA_safe_before_fetch (answering programming)
              [ERender; ENetwork; EClick 0] (le_n 2))
    as (w & Hlife & Hcr & _ & _ & _ & Hview).
  exists w. auto.
Defined.

End JokeTheorems.

(** ** Navbar and the theme provider *)

Section ThemeFacts.

Local Open Scope js_scope.

Lemma theme_hooks_mounted (w : world) (t : value) :
  cells w HTheme = Some t -> ThemeProvider_value w = Ok (theme_context t, w).
Proof.
  intros H. unfold ThemeProvider_value, useState. simpl. rewrite H. reflexivity.
Qed.

Lemma view_theme (children : consumer) (w : world) (t : value) :
  cells w HTheme = Some t ->
  view (ThemeProvider children) w = children [(ThemeContext, theme_context t)].
Proof.
  intros H. unfold view, ThemeProvider. simpl.
  rewrite (theme_hooks_mounted w t H). unfold provide.
  destruct (children [(ThemeContext, theme_context t)]); reflexivity.
Qed.

Lemma paint_theme (children : consumer) (w : world) (t : value) :
  cells w HTheme = Some t -> scheduled w = [] ->
  exists w', paint (ThemeProvider children) w = Some w' /\ frame w w' /\
    crashed w' = match children [(ThemeContext, theme_context t)] with
                 | Ok _ => crashed w
                 | Throw e => Some e
                 end.
Proof.
  intros H Hs. unfold paint, ThemeProvider. simpl.
  rewrite (theme_hooks_mounted w t H). unfold provide.
  destruct (children [(ThemeContext, theme_context t)]) as [nodes|err].
  - destruct (commit_idle w Hs) as (w' & Hc & Hf & Hcr). eauto.
  - eexists. split; [reflexivity|]. split; [apply frame_crash|reflexivity].
Qed.

Lemma mount_navbar :
  exists w0, mount (ThemeProvider Navbar) = Some w0 /\ themed true 0 w0.
Proof.
  eexists. split; [reflexivity|]. repeat split.
Qed.

Lemma navbar_handlers (light : bool) :
  exists nodes,
    Navbar [(ThemeContext, theme_context (VStr (if light then "light" else "dark")))]
    = Ok nodes /\
    flat_map handlers nodes
    = [Handler (VFun (FDispatch HTheme))
               (VStr (if light then "dark" else "light"))].
Proof.
  destruct light; eexists; split; reflexivity.
Qed.

(** A click on the button flips the theme; any other event keeps it. *)
Lemma step_themed (net : network) (light : bool) (n : nat) (w : world) (ev : event) :
  themed light n w ->
  exists w', step net (ThemeProvider Navbar) w ev = Some w' /\
    match ev with
    | EClick 0 => themed (negb light) (S n) w'
    | _ => themed light n w'
    end.
Proof.
  intros (Hc & Hs & Hp & Hcr & Hlen).
  unfold step. rewrite Hcr.
  assert (Hr : exists w1, react net (ThemeProvider Navbar) ev w = Some w1 /\
             match ev with
             | EClick 0 => themed (negb light) (S n) w1
             | _ => themed light n w1
             end).
  { destruct ev as [| |i]; simpl.
    - exists w. split; [reflexivity|]. repeat split; assumption.
    - rewrite Hp. exists w. split; [reflexivity|]. repeat split; assumption.
    - rewrite (view_theme Navbar w _ Hc).
      destruct (navbar_handlers light) as (nodes & -> & ->).
      destruct i as [|i].
      + simpl nth_error. cbv beta iota. simpl callee. simpl argument.
        destruct (start_call_dispatch HTheme _
                    (VStr (if light then "dark" else "light")) w Hc eq_refl)
          as (w1 & -> & Hc1 & _ & Hcalls1 & _ & Hs1 & Hp1 & Hcr1).
        exists w1. split; [reflexivity|].
        split; [destruct light; exact Hc1|].
        split; [congruence|]. split; [congruence|]. split; [congruence|].
        rewrite Hcalls1, length_app. simpl. lia.
      + assert (Hnone : nth_error
                  [Handler (VFun (FDispatch HTheme))
                           (VStr (if light then "dark" else "light"))] (S i) = None)
          by (destruct i; reflexivity).
        rewrite Hnone. exists w. split; [reflexivity|]. repeat split; assumption. }
  destruct Hr as (w1 & -> & H1). simpl.
  assert (Hpaint : forall b m, themed b m w1 ->
            exists w', paint (ThemeProvider Navbar) w1 = Some w' /\ themed b m w').
  { intros b m (Kc & Ks & Kp & Kcr & Klen).
    destruct (paint_theme Navbar w1 _ Kc Ks) as (w2 & -> & (F1 & F2 & F3 & F4 & F5) & Hcr2).
    exists w2. split; [reflexivity|].
    split; [rewrite F1; exact Kc|].
    split; [congruence|]. split; [congruence|].
    split; [|congruence].
    rewrite Hcr2. destruct (navbar_handlers b) as (nodes & -> & _). exact Kcr. }
  destruct ev as [| |[|i]]; apply Hpaint; exact H1.
Qed.

Lemma run_themed (net : network) (evs : list event) :
  forall (light : bool) (n : nat) (w : world),
    themed light n w ->
    exists w', run net (ThemeProvider Navbar) w evs = Some w' /\
      themed (if Nat.even (count_toggles evs) then light else negb light)
             (n + count_toggles evs) w'.
Proof.
  induction evs as [|ev evs IH]; simpl; intros light n w Hw.
  - exists w. split; [reflexivity|]. rewrite Nat.add_0_r. exact Hw.
  - destruct (step_themed net light n w ev Hw) as (w1 & -> & H1). simpl.
    destruct ev as [| |[|i]]; try (apply IH; exact H1).
    destruct (IH (negb light) (S n) w1 H1) as (w2 & Hrun & H2).
    exists w2. split; [exact Hrun|].
    replace (n + S (count_toggles evs)) with (S n + count_toggles evs) by lia.
    rewrite Nat.even_succ, <- Nat.negb_even.
    destruct (Nat.even (count_toggles evs)); simpl in *;
      [exact H2|rewrite Bool.negb_involutive in H2; exact H2].
Qed.

End ThemeFacts.

Section ThemeTheorems.

Local Open Scope js_scope.

(** X1. Under the theme provider of UserHooks.md, Navbar starts in the
    light theme and every click on its button flips the theme: after any
    events the theme is "light" when the number of clicks on the button is
    even and "dark" when it is odd, each click is one call of the setter,
    the tree is mounted, and the screen shows the heading "<theme> MODE"
    over the button in the colours of that theme. *)
Theorem navbar_toggles_theme (net : network) (evs : list event) :
  exists w nodes,
    lifetime net (ThemeProvider Navbar) evs = Some w /\
    theme_value w = VStr (theme_after (count_toggles evs)) /\
    List.length (calls w) = count_toggles evs /\
    crashed w = None /\
    view (ThemeProvider Navbar) w = Ok nodes /\
    root_style nodes = palette (theme_after (count_toggles evs)) /\
    root_texts nodes
    = [theme_after (count_toggles evs) ++ " MODE"; "Toggle Theme"].
Proof.
  unfold lifetime. destruct mount_navbar as (w0 & -> & H0). simpl.
  destruct (run_themed net evs true 0 w0 H0) as (w & -> & Hc & _ & _ & Hcr & Hlen).
  unfold theme_after, theme_value.
  destruct (Nat.even (count_toggles evs)); simpl in Hc.
  - eexists w, _. split; [reflexivity|]. rewrite Hc.
    split; [reflexivity|]. split; [exact Hlen|]. split; [exact Hcr|].
    rewrite (view_theme Navbar w _ Hc). repeat split.
  - eexists w, _. split; [reflexivity|]. rewrite Hc.
    split; [reflexivity|]. split; [exact Hlen|]. split; [exact Hcr|].
    rewrite (view_theme Navbar w _ Hc). repeat split.
Qed.

(** X2. Navbar rendered with no theme provider above it reads [undefined]
    from the context and throws a TypeError at the destructuring; the error
    unmounts the tree, also when Navbar is put under the counter provider
    in the place of CompB. *)
Theorem navbar_without_provider_throws (e : env) :
  nearest ThemeContext e = None ->
  exists msg,
    Navbar e = Throw (TypeError msg) /\
    (forall w, paint (fun _ => bare Navbar e) w = Some (crash (TypeError msg) w)) /\
    exists w0, mount (CountProvider Navbar) = Some w0 /\
               crashed w0 = Some (TypeError msg).
Proof.
  intros Hnone.
  assert (Hctx : useContext ThemeContext e = VUndefined).
  { unfold useContext. rewrite Hnone. reflexivity. }
  eexists. split; [unfold Navbar; rewrite Hctx; reflexivity|].
  split.
  - intros w. unfold paint, bare, Navbar. rewrite Hctx. reflexivity.
  - eexists. split; reflexivity.
Qed.

Lemma navbar_without_provider_throws_witness :
  nearest ThemeContext [(CountContext, count_context (VNum 100))] = None /\
  exists msg,
    Navbar [(CountContext, count_context (VNum 100))] = Throw (TypeError msg).
Proof.
  split; [reflexivity|].
  destruct (navbar_without_provider_throws
              [(CountContext, count_context (VNum 100))] eq_refl)
    as (msg & H & _).
  exists msg. exact H.
Defined.

(** X3. Whatever value the context holds as the theme, as long as it can
    be shown as text, Navbar treats everything that is not the string
    "light" as dark: it uses the light colours for "light" and the dark
    ones otherwise, and its button always asks for "light" or "dark", for
    "light" whenever the theme is not "light"; so from the second click on
    the theme alternates between the two. *)
Theorem navbar_normalises_theme
    (theme setTheme : value) (above : env) (shown : list node) :
  render_child theme = Ok shown ->
  exists nodes,
    Navbar ((ThemeContext, VObj [("theme", theme); ("setTheme", setTheme)]) :: above)
    = Ok nodes /\
    root_style nodes
    = palette (if strict_eq_str theme "light" then "light" else "dark") /\
    flat_map handlers nodes = [Handler setTheme (next_theme theme)] /\
    (next_theme theme = VStr "light" \/ next_theme theme = VStr "dark") /\
    (strict_eq_str theme "light" = false -> next_theme theme = VStr "light") /\
    next_theme (next_theme (next_theme theme)) = next_theme theme.
Proof.
  intros Hshown. unfold Navbar. simpl. rewrite Hshown. simpl.
  eexists. split; [reflexivity|]. unfold next_theme, palette. simpl.
  rewrite flat_map_app, (render_child_handlers theme shown Hshown). simpl.
  destruct (strict_eq_str theme "light"); simpl.
  - split; [reflexivity|]. split; [reflexivity|]. split; [right; reflexivity|].
    split; [discriminate|reflexivity].
  - split; [reflexivity|]. split; [reflexivity|]. split; [left; reflexivity|].
    split; reflexivity.
Qed.

Lemma navbar_normalises_theme_witness :
  exists nodes,
    Navbar [(ThemeContext, VObj [("theme", VStr "blue"); ("setTheme", VNull)])]
    = Ok nodes /\
    root_style nodes = palette "dark" /\
    flat_map handlers nodes = [Handler VNull (VStr "light")].
Proof.
  destruct (navbar_normalises_theme (VStr "blue") VNull [] [NText "blue"] eq_refl)
    as (nodes & H1 & H2 & H3 & _).
  exists nodes. repeat split; assumption.
Defined.

End ThemeTheorems.

(** ** More on the counter provider and App *)

Section CounterMore.

Local Open Scope js_scope.

Lemma paint_count_status (children : consumer) (w : world) (v : value) :
  cells w HCount = Some v -> scheduled w = [] ->
  exists w', paint (CountProvider children) w = Some w' /\ frame w w' /\
    crashed w' = match children [(CountContext, count_context v)] with
                 | Ok _ => crashed w
                 | Throw e => Some e
                 end.
Proof.
  intros H Hs. unfold paint.
  rewrite (count_render_mounted children [] w v H). unfold provide.
  destruct (children [(CountContext, count_context v)]) as [nodes|err].
  - destruct (commit_idle w Hs) as (w' & Hc & Hf & Hcr). eauto.
  - eexists. split; [reflexivity|]. split; [apply frame_crash|reflexivity].
Qed.

Lemma mount_app_idle : exists w0, mount App = Some w0 /\ app_idle w0.
Proof. eexists. split; [reflexivity|]. repeat split. Qed.

Lemma step_app_idle (net : network) (w : world) (ev : event) :
  app_idle w -> exists w', step net App w ev = Some w' /\ app_idle w'.
Proof.
  intros (Hc & Hj & Ht & Hd & Hs & Hp & Hcalls & Hcr).
  unfold step. rewrite Hcr.
  assert (Hr : react net App ev w = Some w).
  { destruct ev; simpl; [reflexivity|rewrite Hp; reflexivity|].
    unfold App. rewrite (view_count CompB w (VNum 100) Hc). simpl.
    destruct i; reflexivity. }
  rewrite Hr. simpl. unfold App.
  destruct (paint_count_status CompB w (VNum 100) Hc Hs)
    as (w' & -> & (F1 & F2 & F3 & F4 & F5) & Hcr').
  exists w'. split; [reflexivity|].
  simpl in Hcr'. unfold app_idle. rewrite F1, F2, F3, F4, F5, Hcr'.
  repeat split; assumption.
Qed.

Lemma run_app_idle (net : network) (evs : list event) :
  forall w, app_idle w -> exists w', run net App w evs = Some w' /\ app_idle w'.
Proof.
  induction evs as [|ev evs IH]; simpl; intros w Hw.
  - exists w. split; [reflexivity|exact Hw].
  - destruct (step_app_idle net w ev Hw) as (w1 & -> & H1). simpl.
    apply IH. exact H1.
Qed.

(** X4. App imports the joke provider and CompA but mounts neither: for
    every network and every sequence of events the tree of App stays
    mounted, records no effect, has no request or promise chain waiting,
    and allocates no cell but the counter's. *)
Theorem app_never_fetches (net : network) (evs : list event) :
  exists w,
    lifetime net App evs = Some w /\
    pending w = [] /\ scheduled w = [] /\ effect_deps w = None /\
    cells w HJoke = None /\ cells w HTheme = None /\
    crashed w = None.
Proof.
  unfold lifetime. destruct mount_app_idle as (w0 & -> & H0). simpl.
  destruct (run_app_idle net evs w0 H0)
    as (w & -> & _ & Hj & Ht & Hd & Hs & Hp & _ & Hcr).
  exists w. repeat split; assumption.
Qed.



(** X6. The setter validates nothing, and CompB puts the counter on screen
    as a JSX child: once the setter has been called in App with a value
    that is not a function and that React cannot show (an object, or an
    array holding one), the next render throws, the tree is unmounted with
    that error and no later event changes anything. *)
Theorem unrenderable_count_unmounts_app
    (net : network) (evs : list event) (v : value) (e : error) :
  is_function v = false ->
  render_child v = Throw e ->
  exists w w1 w2,
    lifetime net App evs = Some w /\
    start (call (VFun (FDispatch HCount)) v) w = Some w1 /\
    paint App w1 = Some w2 /\
    count_value w2 = v /\
    crashed w2 = Some e /\
    view App w2 = Throw e /\
    forall later, run net App w2 later = Some w2.
Proof.
  intros Hv Hthrow.
  unfold lifetime. destruct mount_app_idle as (w0 & -> & H0). simpl.
  destruct (run_app_idle net evs w0 H0)
    as (w & -> & Hc & _ & _ & _ & Hs & _ & _ & _).
  destruct (start_call_dispatch HCount _ v w Hc Hv)
    as (w1 & Hs1 & Hc1 & _ & _ & _ & Hsched1 & _).
  unfold App.
  destruct (paint_count_status CompB w1 v Hc1) as (w2 & Hp2 & (F1 & _) & Hcr2);
    [congruence|].
  assert (Hb : CompB [(CountContext, count_context v)] = Throw e).
  { unfold CompB. simpl. rewrite Hthrow. reflexivity. }
  rewrite Hb in Hcr2.
  assert (Hc2 : cells w2 HCount = Some v) by (rewrite F1; exact Hc1).
  exists w, w1, w2. split; [reflexivity|]. split; [exact Hs1|].
  split; [exact Hp2|].
  split; [unfold count_value; rewrite Hc2; reflexivity|].
  split; [exact Hcr2|].
  split; [rewrite (view_count CompB w2 v Hc2); exact Hb|].
  intros later. apply (run_crashed net (CountProvider CompB) e later w2 Hcr2).
Qed.

Lemma unrenderable_count_unmounts_app_witness :
  exists w w1 w2 e,
    lifetime quiet_net App [ERender] = Some w /\
    start (call (VFun (FDispatch HCount)) (VObj [])) w = Some w1 /\
    paint App w1 = Some w2 /\
    crashed w2 = Some e.
Proof.
  destruct (unrenderable_count_unmounts_app quiet_net [ERender] (VObj [])
              (InvariantError "Objects are not valid as a React child")
              eq_refl eq_refl)
    as (w & w1 & w2 & H1 & H2 & H3 & _ & H5 & _).
  exists w, w1, w2, (InvariantError "Objects are not valid as a React child").
  repeat split; assumption.
Defined.

End CounterMore.

(** ** More on the joke provider and CompA *)

Section JokeMore.

Local Open Scope js_scope.

Variable net : network.
Variable children : consumer.
Variable nodes0 : list node.

Hypothesis children_free : setter_free children.
Hypothesis children_mount : children [(CollegeContext, joke_context (VStr ""))] = Ok nodes0.

(** The render that follows the storing of the payload decides whether the
    tree stays mounted. *)
Lemma step_parsing_crash (r : response) (j : json) (w w' : world) :
  in_phase (Parsing r) w -> body r = Some j ->
  step net (CollegeProvider children) w ENetwork = Some w' ->
  crashed w' = crash_of (children [(CollegeContext, joke_context (of_json j))]).
Proof.
  intros (Hd & Hs & Hc & Hp & Hcalls & Hcr) Hbody.
  unfold step. rewrite Hcr. simpl. rewrite Hp.
  unfold chain_parsing, response_json. simpl. unfold parse_body. rewrite Hbody. simpl.
  unfold dispatch. simpl. rewrite Hc.
  rewrite (reducer_plain (VStr "") (of_json j) (of_json_not_function j)). simpl.
  match goal with |- context [paint (CollegeProvider children) ?x] => set (w1 := x) end.
  destruct (paint_college children w1 (of_json j)) as (w2 & -> & _ & Hcr2); auto.
  intros H. inversion H; subst w'.
  destruct (children [(CollegeContext, joke_context (of_json j))]); simpl;
    [rewrite Hcr2; exact Hcr|exact Hcr2].
Qed.

Lemma step_stored_crash (d : value) (w w' : world) (ev : event) :
  in_phase (Stored d) w ->
  crashed w = crash_of (children [(CollegeContext, joke_context d)]) ->
  step net (CollegeProvider children) w ev = Some w' ->
  crashed w' = crash_of (children [(CollegeContext, joke_context d)]).
Proof.
  intros Hph Hcr Hstep.
  pose proof Hph as (Hd & Hs & Hc & Hp & _).
  destruct (step_quiet net children children_free w d ev Hc Hd Hs (or_intror Hp))
    as (w'' & Hstep' & _ & Hkeep).
  rewrite Hstep in Hstep'. inversion Hstep'; subst w''.
  destruct (crashed w) as [err|] eqn:Hcw.
  - unfold step in Hstep. rewrite Hcw in Hstep. inversion Hstep; subst w'.
    rewrite Hcw. exact Hcr.
  - destruct (children [(CollegeContext, joke_context d)]) as [nodes|err] eqn:Hk;
      simpl in Hcr; [|discriminate Hcr].
    simpl. apply (Hkeep eq_refl nodes eq_refl).
Qed.

Lemma step_tracked (ph : phase) (w : world) (ev : event) :
  in_phase_tracked children ph w ->
  exists w', step net (CollegeProvider children) w ev = Some w' /\
    in_phase_tracked children (next_phase net ph ev) w'.
Proof.
  intros (Hph & Htr).
  destruct (step_phase net children nodes0 children_free children_mount ph w ev Hph)
    as (w' & Hstep & Hph').
  exists w'. split; [exact Hstep|]. split; [exact Hph'|].
  intros d Hd.
  destruct ph as [|r|d0|].
  - destruct ev; simpl in Hd; try discriminate Hd.
    destruct (net joke_url); discriminate Hd.
  - destruct ev; simpl in Hd; try discriminate Hd.
    destruct (body r) as [j|] eqn:Hbody; [|discriminate Hd].
    inversion Hd; subst d.
    apply (step_parsing_crash r j w w' Hph Hbody Hstep).
  - assert (d = d0) by (destruct ev; simpl in Hd; inversion Hd; reflexivity).
    subst d.
    apply (step_stored_crash d0 w w' ev Hph (Htr d0 eq_refl) Hstep).
  - destruct ev; simpl in Hd; discriminate Hd.
Qed.

Lemma run_tracked (evs : list event) :
  forall (ph : phase) (w : world),
    in_phase_tracked children ph w ->
    exists w', run net (CollegeProvider children) w evs = Some w' /\
      in_phase_tracked children (fold_left (next_phase net) evs ph) w'.
Proof.
  induction evs as [|ev evs IH]; simpl; intros ph w Hph.
  - exists w. split; [reflexivity|exact Hph].
  - destruct (step_tracked ph w ev Hph) as (w1 & -> & H1). simpl.
    apply IH. exact H1.
Qed.

Lemma lifetime_tracked (evs : list event) :
  exists w, lifetime net (CollegeProvider children) evs = Some w /\
    in_phase_tracked children (fold_left (next_phase net) evs Requested) w.
Proof.
  unfold lifetime.
  destruct (mount_college children nodes0 children_mount) as (w0 & -> & H0). simpl.
  apply run_tracked. split; [exact H0|]. intros d Hd. discriminate Hd.
Qed.

End JokeMore.

Section JokeMoreTheorems.

Local Open Scope js_scope.

Lemma append_empty_r (s : string) : s ++ "" = s.
Proof. induction s as [|c s IH]; simpl; [reflexivity|rewrite IH; reflexivity]. Qed.

(** X7. Once the payload is stored (the environment has answered twice),
    whether the tree survives is decided by the subtree alone: the joke is
    the payload, the screen is what the subtree renders for it, and the
    tree is unmounted, for good, exactly when the subtree throws on it, as
    CompA does on the body [null]. *)
Theorem payload_decides_mount
    (net : network) (children : consumer) (nodes0 : list node)
    (r : response) (payload : json) (evs : list event) :
  setter_free children ->
  children [(CollegeContext, joke_context (VStr ""))] = Ok nodes0 ->
  net joke_url = Ok r ->
  body r = Some payload ->
  2 <= count_network evs ->
  exists w,
    lifetime net (CollegeProvider children) evs = Some w /\
    joke_value w = of_json payload /\
    view (CollegeProvider children) w
    = children [(CollegeContext, joke_context (of_json payload))] /\
    crashed w
    = crash_of (children [(CollegeContext, joke_context (of_json payload))]).
Proof.
  intros Hfree Hmount Hnet Hbody Htwo.
  destruct (lifetime_tracked net children nodes0 Hfree Hmount evs)
    as (w & Hlife & Hph & Htr).
  rewrite (phases_success net r payload evs Hnet Hbody) in Hph, Htr.
  destruct (count_network evs) as [|[|n]]; [lia|lia|].
  pose proof Hph as (Hd & _ & Hc & _).
  exists w. split; [exact Hlife|].
  split; [unfold joke_value; rewrite Hc; reflexivity|].
  split; [apply (view_college children w _ Hc Hd)|].
  apply Htr. reflexivity.
Qed.

Lemma payload_decides_mount_witness :
  exists w msg,
    lifetime (answering JNull) (CollegeProvider CompA) [ENetwork; ENetwork] = Some w /\
    joke_value w = VNull /\
    crashed w = Some (TypeError msg).
Proof.
  destruct (payload_decides_mount (answering JNull) CompA _
              {| status := 200; body := Some JNull |} JNull [ENetwork; ENetwork]
              CompA_setter_free CompA_placeholder eq_refl eq_refl (le_n 2))
    as (w & Hlife & Hjoke & _ & Hcr).
  exists w. eexists. split; [exact Hlife|]. split; [exact Hjoke|]. exact Hcr.
Defined.

(** X8. For every payload that is an object whose [category] is a
    non-empty string [s], once the environment has answered twice CompA
    under the joke provider shows the title and a second heading reading
    "Category: " followed by [s], and the tree stays mounted. *)
Theorem CompA_shows_any_category
    (net : network) (r : response) (payload : json) (s : string)
    (evs : list event) :
  net joke_url = Ok r ->
  body r = Some payload ->
  get_prop (of_json payload) "category" = Ok (VStr s) ->
  s <> "" ->
  2 <= count_network evs ->
  exists w h2,
    lifetime net (CollegeProvider CompA) evs = Some w /\
    crashed w = None /\
    view (CollegeProvider CompA) w
    = Ok [NElem "div" plain [NElem "h1" plain [NText "Joke of the day"]; h2]] /\
    tags h2 = ["h2"] /\
    text_content h2 = "Category: " ++ s.
Proof.
  intros Hnet Hbody Hcat Hs Htwo.
  destruct (lifetime_tracked net CompA _ CompA_setter_free CompA_placeholder evs)
    as (w & Hlife & Hph & Htr).
  rewrite (phases_success net r payload evs Hnet Hbody) in Hph, Htr.
  destruct (count_network evs) as [|[|n]]; [lia|lia|].
  pose proof Hph as (Hd & _ & Hc & _).
  assert (Hne : String.eqb s "" = false) by (apply String.eqb_neq; exact Hs).
  assert (HA : CompA [(CollegeContext, joke_context (of_json payload))]
               = Ok [NElem "div" plain
                       [NElem "h1" plain [NText "Joke of the day"];
                        NElem "h2" plain [NText "Category: "; NText s]]]).
  { unfold CompA. simpl. rewrite Hcat. simpl. rewrite Hne. simpl. reflexivity. }
  exists w, (NElem "h2" plain [NText "Category: "; NText s]).
  split; [exact Hlife|].
  split; [rewrite (Htr _ eq_refl), HA; reflexivity|].
  split; [rewrite (view_college CompA w _ Hc Hd); exact HA|].
  split; [reflexivity|].
  simpl. rewrite append_empty_r. reflexivity.
Qed.

Lemma CompA_shows_any_category_witness :
  exists w h2,
    lifetime (answering (JObj [("id", JNum 7); ("category", JStr "Pun")]))
      (CollegeProvider CompA) [ENetwork; ENetwork] = Some w /\
    view (CollegeProvider CompA) w
    = Ok [NElem "div" plain [NElem "h1" plain [NText "Joke of the day"]; h2]] /\
    text_content h2 = "Category: Pun".
Proof.
  destruct (CompA_shows_any_category
              (answering (JObj [("id", JNum 7); ("category", JStr "Pun")]))
              {| status := 200;
                 body := Some (JObj [("id", JNum 7); ("category", JStr "Pun")]) |}
              (JObj [("id", JNum 7); ("category", JStr "Pun")]) "Pun"
              [ENetwork; ENetwork] eq_refl eq_refl eq_refl
              ltac:(discriminate) (le_n 2))
    as (w & h2 & Hlife & _ & Hview & _ & Htext).
  exists w, h2. repeat split; assumption.
Defined.

(** X9. When the [category] of the joke is falsy, CompA renders no second
    heading and, because the guard is [joke.category && ...], puts the
    falsy value itself in its place: nothing for undefined, null, false and
    the empty string, but the text "0" for the number 0. *)
Theorem CompA_falsy_category (j c : value) (above : env) :
  get_prop j "category" = Ok c ->
  truthy c = false ->
  CompA ((CollegeContext, joke_context j) :: above)
  = Ok [NElem "div" plain
          (NElem "h1" plain [NText "Joke of the day"]
           :: match c with VNum _ => [NText "0"] | _ => [] end)].
Proof.
  intros Hcat Hfalsy. unfold CompA. simpl. rewrite Hcat. simpl. rewrite Hfalsy.
  destruct c as [| |b|n|s| | |]; simpl in Hfalsy; try discriminate Hfalsy;
    try reflexivity.
  - apply Bool.negb_false_iff, Z.eqb_eq in Hfalsy. subst n. reflexivity.
  - apply Bool.negb_false_iff in Hfalsy. simpl. rewrite Hfalsy. reflexivity.
Qed.

Lemma CompA_falsy_category_witness :
  CompA [(CollegeContext, joke_context (VObj [("category", VNum 0)]))]
  = Ok [NElem "div" plain
          [NElem "h1" plain [NText "Joke of the day"]; NText "0"]].
Proof.
  apply (CompA_falsy_category (VObj [("category", VNum 0)]) (VNum 0) []);
    reflexivity.
Defined.

Lemma unstored_view (children : consumer) (ph : phase) (w : world) :
  unstored ph -> in_phase ph w ->
  joke_value w = VStr "" /\ calls w = [] /\ crashed w = None /\
  view (CollegeProvider children) w
  = children [(CollegeContext, joke_context (VStr ""))].
Proof.
  intros Hun Hph. pose proof Hph as (Hd & _).
  destruct (in_phase_unstored ph w Hun Hph) as (Hc & Hcalls & Hcr).
  split; [unfold joke_value; rewrite Hc; reflexivity|].
  split; [exact Hcalls|]. split; [exact Hcr|].
  apply (view_college children w _ Hc Hd).
Qed.

(** X10. The provider never looks at the status of the response: two
    networks whose responses carry the same body, whatever their status
    codes, lead through the same events to the same joke, the same calls of
    the setter, the same screen and the same fate of the tree. *)
Theorem response_status_is_ignored
    (net1 net2 : network) (children : consumer) (nodes0 : list node)
    (r1 r2 : response) (evs : list event) :
  setter_free children ->
  children [(CollegeContext, joke_context (VStr ""))] = Ok nodes0 ->
  net1 joke_url = Ok r1 ->
  net2 joke_url = Ok r2 ->
  body r1 = body r2 ->
  exists w1 w2,
    lifetime net1 (CollegeProvider children) evs = Some w1 /\
    lifetime net2 (CollegeProvider children) evs = Some w2 /\
    joke_value w1 = joke_value w2 /\
    calls w1 = calls w2 /\
    crashed w1 = crashed w2 /\
    view (CollegeProvider children) w1 = view (CollegeProvider children) w2.
Proof.
  intros Hfree Hmount Hn1 Hn2 Hbody.
  destruct (lifetime_tracked net1 children nodes0 Hfree Hmount evs)
    as (w1 & Hl1 & Hp1 & Ht1).
  destruct (lifetime_tracked net2 children nodes0 Hfree Hmount evs)
    as (w2 & Hl2 & Hp2 & Ht2).
  exists w1, w2. split; [exact Hl1|]. split; [exact Hl2|].
  assert (Hquiet : forall ph1 ph2, unstored ph1 -> unstored ph2 ->
            in_phase ph1 w1 -> in_phase ph2 w2 ->
            joke_value w1 = joke_value w2 /\ calls w1 = calls w2 /\
            crashed w1 = crashed w2 /\
            view (CollegeProvider children) w1 = view (CollegeProvider children) w2).
  { intros ph1 ph2 U1 U2 I1 I2.
    destruct (unstored_view children ph1 w1 U1 I1) as (A1 & A2 & A3 & A4).
    destruct (unstored_view children ph2 w2 U2 I2) as (B1 & B2 & B3 & B4).
    repeat split; congruence. }
  destruct (body r1) as [j|] eqn:Hb1.
  - symmetry in Hbody.
    rewrite (phases_success net1 r1 j evs Hn1 Hb1) in Hp1, Ht1.
    rewrite (phases_success net2 r2 j evs Hn2 Hbody) in Hp2, Ht2.
    destruct (count_network evs) as [|[|n]].
    + apply (Hquiet Requested Requested I I Hp1 Hp2).
    + apply (Hquiet (Parsing r1) (Parsing r2) I I Hp1 Hp2).
    + pose proof Hp1 as (Hd1 & _ & Hc1 & _ & Hcalls1).
      pose proof Hp2 as (Hd2 & _ & Hc2 & _ & Hcalls2).
      split; [unfold joke_value; rewrite Hc1, Hc2; reflexivity|].
      split; [congruence|].
      split; [rewrite (Ht1 _ eq_refl), (Ht2 _ eq_refl); reflexivity|].
      rewrite (view_college children w1 _ Hc1 Hd1).
      rewrite (view_college children w2 _ Hc2 Hd2). reflexivity.
  - symmetry in Hbody.
    apply (Hquiet _ _
             (phases_failure net1 evs (or_intror (ex_intro _ r1 (conj Hn1 Hb1))))
             (phases_failure net2 evs (or_intror (ex_intro _ r2 (conj Hn2 Hbody))))
             Hp1 Hp2).
Qed.

Lemma response_status_is_ignored_witness :
  exists w1 w2,
    lifetime (fun _ => Ok {| status := 200; body := Some programming |})
      (CollegeProvider CompA) [ENetwork; ENetwork] = Some w1 /\
    lifetime (fun _ => Ok {| status := 500; body := Some programming |})
      (CollegeProvider CompA) [ENetwork; ENetwork] = Some w2 /\
    joke_value w1 = joke_value w2 /\
    view (CollegeProvider CompA) w1 = view (CollegeProvider CompA) w2.
Proof.
  destruct (response_status_is_ignored
              (fun _ => Ok {| status := 200; body := Some programming |})
              (fun _ => Ok {| status := 500; body := Some programming |})
              CompA _
              {| status := 200; body := Some programming |}
              {| status := 500; body := Some programming |}
              [ENetwork; ENetwork]
              CompA_setter_free CompA_placeholder eq_refl eq_refl eq_refl)
    as (w1 & w2 & H1 & H2 & H3 & _ & _ & H6).
  exists w1, w2. repeat split; assumption.
Defined.

(** X11. The effect runs only after a render that succeeded: when the
    subtree throws on the first render, as CompB does under the joke
    provider, the tree is unmounted with that error, no request is ever
    sent and the setter is never called, whatever happens afterwards. *)
Theorem failed_mount_sends_no_request
    (net : network) (children : consumer) (e : error) (evs : list event) :
  children [(CollegeContext, joke_context (VStr ""))] = Throw e ->
  exists w,
    lifetime net (CollegeProvider children) evs = Some w /\
    crashed w = Some e /\
    pending w = [] /\ scheduled w = [] /\ calls w = [] /\
    effect_deps w = None.
Proof.
  intros Hthrow.
  assert (Hm : mount (CollegeProvider children) = Some (crash e initial_world)).
  { unfold mount, paint, CollegeProvider. simpl.
    unfold provide. fold (joke_context (VStr "")). rewrite Hthrow. reflexivity. }
  unfold lifetime. rewrite Hm. simpl.
  rewrite (run_crashed net (CollegeProvider children) e evs
             (crash e initial_world) eq_refl).
  eexists. split; [reflexivity|]. repeat split.
Qed.

Lemma failed_mount_sends_no_request_witness :
  exists w msg,
    lifetime (answering programming) (CollegeProvider CompB)
      [ENetwork; ERender; ENetwork] = Some w /\
    crashed w = Some (TypeError msg) /\ pending w = [] /\ calls w = [].
Proof.
  destruct (failed_mount_sends_no_request (answering programming) CompB
              (TypeError "Cannot read properties of undefined (reading 'count')")
              [ENetwork; ERender; ENetwork] eq_refl)
    as (w & H1 & H2 & H3 & _ & H5 & _).
  exists w. eexists. repeat split; eassumption.
Defined.

(** X12. When the request fails or its body is not JSON, the user of CompA
    under the joke provider is shown the title alone during the whole
    mount, with no sign of the failure, and the tree stays mounted. *)
Theorem fetch_failure_shows_title_only (net : network) (evs : list event) :
  (exists e, net joke_url = Throw e) \/
  (exists r, net joke_url = Ok r /\ body r = None) ->
  exists w,
    lifetime net (CollegeProvider CompA) evs = Some w /\
    crashed w = None /\
    view (CollegeProvider CompA) w
    = Ok [NElem "div" plain [NElem "h1" plain [NText "Joke of the day"]]].
Proof.
  intros Hfail.
  destruct (lifetime_phase net CompA _ CompA_setter_free CompA_placeholder evs)
    as (w & Hlife & Hph).
  destruct (unstored_view CompA _ w (phases_failure net evs Hfail) Hph)
    as (_ & _ & Hcr & Hview).
  exists w. split; [exact Hlife|]. split; [exact Hcr|].
  rewrite Hview. reflexivity.
Qed.

Lemma fetch_failure_shows_title_only_witness :
  exists w,
    lifetime quiet_net (CollegeProvider CompA) [ENetwork; ERender; ENetwork] = Some w /\
    view (CollegeProvider CompA) w
    = Ok [NElem "div" plain [NElem "h1" plain [NText "Joke of the day"]]].
Proof.
  destruct (fetch_failure_shows_title_only quiet_net [ENetwork; ERender; ENetwork]
              (or_introl (ex_intro _ (NetworkError "offline") eq_refl)))
    as (w & H1 & _ & H3).
  exists w. split; assumption.
Defined.

(** X13. Whatever the network does, a mounted joke provider issues one
    request and no other: at every moment the chains waiting for the
    environment and the calls of the setter made so far number at most one
    together, the only call there can be is a call of [setJoke], and the
    effect stays recorded with its empty dependency array. *)
Theorem joke_single_request
    (net : network) (children : consumer) (nodes0 : list node) (evs : list event) :
  setter_free children ->
  children [(CollegeContext, joke_context (VStr ""))] = Ok nodes0 ->
  exists w,
    lifetime net (CollegeProvider children) evs = Some w /\
    List.length (pending w) + List.length (calls w) <= 1 /\
    (forall h a, In (h, a) (calls w) -> h = HJoke /\ a = joke_value w) /\
    effect_deps w = Some [] /\
    (count_network evs = 0 -> pending w = [fetch_joke (VFun (FDispatch HJoke))]).
Proof.
  intros Hfree Hmount.
  destruct (lifetime_phase net children nodes0 Hfree Hmount evs) as (w & Hlife & Hph).
  exists w. split; [exact Hlife|].
  pose proof Hph as (Hd & _ & Hrest).
  assert (Hzero : count_network evs = 0 ->
                  fold_left (next_phase net) evs Requested = Requested)
    by (apply phases_no_answer).
  destruct (fold_left (next_phase net) evs Requested) as [|r|d|] eqn:Hfold;
    simpl in Hrest.
  - destruct Hrest as (_ & Hp & Hcalls & _). rewrite Hp, Hcalls.
    split; [simpl; lia|]. split; [intros h a []|]. split; [exact Hd|].
    intros _. reflexivity.
  - destruct Hrest as (_ & Hp & Hcalls & _). rewrite Hp, Hcalls.
    split; [simpl; lia|]. split; [intros h a []|]. split; [exact Hd|].
    intros H0. discriminate (Hzero H0).
  - destruct Hrest as (Hc & Hp & Hcalls). rewrite Hp, Hcalls.
    split; [simpl; lia|].
    split.
    { intros h a [Hin|[]]. inversion Hin; subst.
      unfold joke_value. rewrite Hc. split; reflexivity. }
    split; [exact Hd|].
    intros H0. discriminate (Hzero H0).
  - destruct Hrest as (_ & Hp & Hcalls & _). rewrite Hp, Hcalls.
    split; [simpl; lia|]. split; [intros h a []|]. split; [exact Hd|].
    intros H0. discriminate (Hzero H0).
Qed.

Lemma joke_single_request_witness :
  exists w,
    lifetime (answering programming) (CollegeProvider CompA)
      [ERender; ENetwork; ERender; ERender; ENetwork; ERender] = Some w /\
    List.length (pending w) + List.length (calls w) <= 1.
Proof.
  destruct (joke_single_request (answering programming) CompA _
              [ERender; ENetwork; ERender; ERender; ENetwork; ERender]
              CompA_setter_free CompA_placeholder)
    as (w & H1 & H2 & _).
  exists w. split; assumption.
Defined.

End JokeMoreTheorems.
